(** * Home: a tiny web framework for Ruff -- request dispatch pipeline

    A shallow embedding of [src/index.ts] (class [Server] and the helpers
    [findAndMerge] / [assign], in the version that knows gzipped static
    files) together with the properties stated for it.

    Conventions of the embedding:
    - JavaScript strings are [string]; the operations used by the source
      ([indexOf], [substr], [split], the regular expressions) are written
      out as functions on strings;
    - plain JavaScript objects used as dictionaries (the template cache,
      the response headers, the MIME table, the file system seen through
      [fs]) are [gmap]s keyed by strings;
    - exceptions are results of type [Exn];
    - the response object is a record that is passed along explicitly. *)

From Stdlib Require Import ZArith Ascii String DecimalString.
From stdpp Require Import base option list strings gmap.

Local Open Scope Z_scope.

(** ** JavaScript string primitives *)

Module Js.

(** The character [/]. *)
Definition slash : ascii := "/"%char.

(** [s.length] *)
Definition length (s : string) : nat := String.length s.

(** [s.substr(start)] for a non-negative [start]. *)
Fixpoint substr_from (s : string) (start : nat) {struct start} : string :=
  match start, s with
  | O, _ => s
  | S _, EmptyString => EmptyString
  | S n, String _ s' => substr_from s' n
  end.

(** The first [len] characters of [s]. *)
Fixpoint take (s : string) (len : nat) {struct len} : string :=
  match len, s with
  | O, _ => EmptyString
  | S _, EmptyString => EmptyString
  | S n, String c s' => String c (take s' n)
  end.

(** [s.substr(start, len)] for non-negative arguments. *)
Definition substr (s : string) (start len : nat) : string :=
  take (substr_from s start) len.

(** [s] begins with [p]. *)
Fixpoint starts_with (p s : string) : bool :=
  match p, s with
  | EmptyString, _ => true
  | String _ _, EmptyString => false
  | String a p', String b s' => if Ascii.eqb a b then starts_with p' s' else false
  end.

(** [s.indexOf(p)]: the least position at which [p] occurs in [s], or
    [-1].  [k] is the position of the head of [s] in the whole string. *)
Fixpoint indexOf_from (s p : string) (k : Z) : Z :=
  if starts_with p s then k
  else match s with
       | EmptyString => -1
       | String _ s' => indexOf_from s' p (k + 1)
       end.

Definition indexOf (s p : string) : Z := indexOf_from s p 0.

(** [/\/$/.test(s)]: the last character of [s] is a slash. *)
Fixpoint ends_with_slash (s : string) : bool :=
  match s with
  | EmptyString => false
  | String c EmptyString => Ascii.eqb c slash
  | String _ s' => ends_with_slash s'
  end.

(** [a === b] on strings. *)
Definition str_eq (a b : string) : bool := String.eqb a b.

End Js.

(** ** Values handled by the framework *)

(** Data a handler may return, and the data handed to a template. *)
#[warnings="-register-all"]
Inductive JSValue : Type :=
| JUndefined
| JNull
| JBool (b : bool)
| JNum (n : Z)
| JStr (s : string)
| JArr (items : list JSValue)
| JObj (fields : list (string * JSValue)).

(** The [ServerResponse] of the runtime, reduced to what the framework
    reads and writes. *)
Record ServerResponse : Type := mkResponse {
  _headerSent : bool;
  statusCode : Z;
  headers : gmap string string;
  body : string;
  finished : bool
}.

(** A response on which nothing was written yet. *)
Definition fresh_response : ServerResponse :=
  mkResponse false 200 ∅ "" false.

(** [res.setHeader(name, value)] *)
Definition setHeader (name value : string) (res : ServerResponse) : ServerResponse :=
  mkResponse (_headerSent res) (statusCode res) (<[name := value]> (headers res))
             (body res) (finished res).

(** [res.statusCode = code] *)
Definition setStatusCode (code : Z) (res : ServerResponse) : ServerResponse :=
  mkResponse (_headerSent res) code (headers res) (body res) (finished res).

(** [res.write(chunk)]: the header section goes out with the first chunk. *)
Definition write (chunk : string) (res : ServerResponse) : ServerResponse :=
  mkResponse true (statusCode res) (headers res) (body res +:+ chunk) (finished res).

(** [res.end()] *)
Definition end_ (res : ServerResponse) : ServerResponse :=
  mkResponse true (statusCode res) (headers res) (body res) true.

(** [abstract class Response { abstract applyTo(res): void }] *)
Record Response : Type := mkResponseObject {
  applyTo : ServerResponse → ServerResponse
}.

(** What can be thrown or be the reason of a rejection:
    [ExpectedError], its subclass [NotFoundError], or anything else. *)
Inductive Thrown : Type :=
| ExpectedError (message : string) (statusCode : Z)
| NotFoundError (message : string) (path : string)
| Untyped (detail : string).

Module Req.
(** [interface Request extends IncomingMessage { path; query }] *)
Record Request : Type := mk {
  method : string;
  path : string;
  query : gmap string string
}.
End Req.
Definition Request : Type := Req.Request.

(** A value that ends the dispatch: [Response | Object | void]. *)
Inductive Terminal : Type :=
| AResponse (r : Response)
| AValue (v : JSValue).

(** The value a middleware produces.  [TheRequest] is the request object
    itself ([result === req]), the sign for "not handled, try the next
    route". *)
Inductive Result : Type :=
| TheRequest
| Final (t : Terminal).

Inductive PromiseState : Type :=
| Fulfilled (v : Result)
| Rejected (reason : Thrown)
| Pending.

(** [Resolvable<T> = Promise<T> | T] *)
Inductive Resolvable : Type :=
| Plain (v : Result)
| APromise (p : PromiseState).

(** The effect of one call [route.middleware(req, res)]. *)
Inductive Invocation : Type :=
| Threw (error : Thrown)
| Returned (r : Resolvable).

(** [interface Middleware]: the middleware sees the request and the
    response; the response it leaves behind is returned with the outcome.
    Middlewares are taken to leave the method of the request and the
    route table alone. *)
Definition Middleware : Type :=
  Request → ServerResponse → ServerResponse * Invocation.

(** ** Route table *)

(** [interface RouteOptions] *)
Record RouteOptions : Type := mkOptions {
  opt_method : option string;
  opt_path : string;
  opt_extendable : bool;
  opt_middleware : Middleware
}.

(** [interface Route extends RouteOptions { pathWithEndingSlash }] *)
Record Route : Type := mkRoute {
  method : option string;
  path : string;
  extendable : bool;
  middleware : Middleware;
  pathWithEndingSlash : string
}.

(** The fields of [class Server] ([server], the listening socket, is left
    out). *)
Record Server : Type := mkServer {
  routes : list Route;
  views : string;
  errorViewsFolder : string;
  _templateCache : gmap string (option string)
}.

(** [new Server({views, errorViewsFolder})] *)
Definition new_Server (views errorViewsFolder : string) : Server :=
  mkServer [] views errorViewsFolder ∅.

(** The route built by [add] from its options. *)
Definition route_of (options : RouteOptions) : Route :=
  let p := opt_path options in
  if Js.str_eq p "/" then
    mkRoute (opt_method options) p (opt_extendable options)
            (opt_middleware options) p
  else if Js.ends_with_slash p then
    mkRoute (opt_method options) (Js.substr p 0 (Js.length p - 1))
            (opt_extendable options) (opt_middleware options) p
  else
    mkRoute (opt_method options) p (opt_extendable options)
            (opt_middleware options) (p +:+ "/").

(** [Server.add]: [this.routes.push(route)] *)
Definition add (options : RouteOptions) (srv : Server) : Server :=
  mkServer (routes srv ++ [route_of options])
           (views srv) (errorViewsFolder srv) (_templateCache srv).

(** [Server.use], [Server.get], [Server.post] *)
Definition use (p : string) (m : Middleware) : Server → Server :=
  add (mkOptions None p true m).

Definition get (p : string) (m : Middleware) : Server → Server :=
  add (mkOptions (Some "GET") p false m).

Definition post (p : string) (m : Middleware) : Server → Server :=
  add (mkOptions (Some "POST") p false m).

(** Truthiness of [route.method] (type [string | undefined]). *)
Definition truthy_method (m : option string) : bool :=
  match m with
  | None => false
  | Some s => negb (Js.str_eq s "")
  end.

(** The test of [next] under which a route is passed over:
    [(method && method !== req.method) ||
     (pathname !== route.path &&
      (!route.extendable ||
       pathname.indexOf(route.pathWithEndingSlash) !== 0))] *)
Definition skipped (route : Route) (req_method pathname : string) : bool :=
  (truthy_method (method route) &&
   negb (Js.str_eq (default "" (method route)) req_method))
  || (negb (Js.str_eq pathname (path route)) &&
      (negb (extendable route) ||
       negb (Js.indexOf pathname (pathWithEndingSlash route) =? 0))).

(** A route is a dispatch candidate when [next] does not pass over it. *)
Definition candidate (route : Route) (req_method pathname : string) : bool :=
  negb (skipped route req_method pathname).

(** The candidate condition in the words of the specification: no method
    constraint or the same method, and the exact path or, for a
    prefix-matching route, a path that starts with the prefix path. *)
Definition spec_candidate (route : Route) (req_method pathname : string) : Prop :=
  (method route = None ∨ method route = Some req_method) ∧
  (pathname = path route ∨
   (extendable route = true ∧
    ∃ rest, pathname = pathWithEndingSlash route +:+ rest)).

(** ** Exceptions *)

Inductive Exn (A : Type) : Type :=
| Ok (a : A)
| Throw (e : Thrown).
Arguments Ok {A} a.
Arguments Throw {A} e.

Global Instance Exn_ret : MRet Exn := fun A a => Ok a.

Global Instance Exn_bind : MBind Exn := fun A B k x =>
  match x with
  | Ok a => k a
  | Throw e => Throw e
  end.

Global Instance Exn_fmap : FMap Exn := fun A B f x =>
  match x with
  | Ok a => Ok (f a)
  | Throw e => Throw e
  end.

(** A [TypeError] of the runtime; it is not an [ExpectedError]. *)
Definition TypeError : Thrown := Untyped "TypeError".

(** ** JavaScript values *)

Module Value.

(** The double-quote character. *)
Definition dquote : ascii := "034"%char.

(** [String(n)] for an integer [n] that JavaScript prints in plain decimal
    notation, as it does the sizes of files and every integer below
    [10^21] in magnitude. *)
Definition num_to_string (n : Z) : string :=
  NilZero.string_of_int (Z.to_int n).

(** Truthiness, as used by [data || Object.create(null)]. *)
Definition truthy (v : JSValue) : bool :=
  match v with
  | JUndefined | JNull => false
  | JBool b => b
  | JNum n => negb (n =? 0)
  | JStr s => negb (Js.str_eq s "")
  | JArr _ | JObj _ => true
  end.

(** [items.join(sep)] on strings. *)
Fixpoint join (sep : string) (items : list string) : string :=
  match items with
  | [] => ""
  | [x] => x
  | x :: rest => x +:+ sep +:+ join sep rest
  end.

(** The conversion to a string applied by [String.prototype.replace] to
    what the replacer returns. *)
Fixpoint to_string (v : JSValue) : string :=
  match v with
  | JUndefined => "undefined"
  | JNull => "null"
  | JBool true => "true"
  | JBool false => "false"
  | JNum n => num_to_string n
  | JStr s => s
  | JArr items =>
      join "," (List.map (fun x => match x with
                                   | JUndefined | JNull => ""
                                   | _ => to_string x
                                   end) items)
  | JObj _ => "[object Object]"
  end.

(** The array index a property key denotes, among the [len] first. *)
Definition index_of_key (key : string) (len : nat) : option nat :=
  List.find (fun i => Js.str_eq (num_to_string (Z.of_nat i)) key) (seq 0 len).

(** Own property of an object literal; a later duplicate key wins. *)
Fixpoint own_property (fields : list (string * JSValue)) (key : string)
  : option JSValue :=
  match fields with
  | [] => None
  | (k, v) :: rest =>
      match own_property rest key with
      | Some later => Some later
      | None => if Js.str_eq k key then Some v else None
      end
  end.

(** [node[key]] for a key that names an own property of [node] or no
    member of it at all.  Reading a property of [undefined] or [null]
    throws.  The members a value inherits from the prototypes of the
    runtime ([toString], [constructor], ...) are no data and have no
    place here: the source reads them, this function gives [undefined]
    for them.  Where a key could be such a member, the statements below
    take the result of the substitution as given rather than compute
    it. *)
Definition get_property (node : JSValue) (key : string) : Exn JSValue :=
  match node with
  | JUndefined | JNull => Throw TypeError
  | JBool _ | JNum _ => Ok JUndefined
  | JStr s =>
      if Js.str_eq key "length" then Ok (JNum (Z.of_nat (Js.length s)))
      else match index_of_key key (Js.length s) with
           | Some i => Ok (JStr (Js.substr s i 1))
           | None => Ok JUndefined
           end
  | JArr items =>
      if Js.str_eq key "length" then Ok (JNum (Z.of_nat (List.length items)))
      else match index_of_key key (List.length items) with
           | Some i => Ok (nth i items JUndefined)
           | None => Ok JUndefined
           end
  | JObj fields => Ok (default JUndefined (own_property fields key))
  end.

End Value.

(** ** [JSON.stringify] *)

Module Json.

Definition hex_digit (n : nat) : ascii :=
  nth n ["0"; "1"; "2"; "3"; "4"; "5"; "6"; "7"; "8"; "9";
         "a"; "b"; "c"; "d"; "e"; "f"]%char "0"%char.

(** The escape of one character inside a JSON string. *)
Definition escape_char (c : ascii) : string :=
  let n := nat_of_ascii c in
  if Ascii.eqb c Value.dquote then String "\"%char (String Value.dquote "")
  else if Ascii.eqb c "\"%char then "\\"
  else if Nat.eqb n 8 then "\b"
  else if Nat.eqb n 9 then "\t"
  else if Nat.eqb n 10 then "\n"
  else if Nat.eqb n 12 then "\f"
  else if Nat.eqb n 13 then "\r"
  else if Nat.ltb n 32 then
    "\u00" +:+ String (hex_digit (n / 16)) (String (hex_digit (n mod 16)) "")
  else String c "".

Fixpoint escape (s : string) : string :=
  match s with
  | EmptyString => ""
  | String c s' => escape_char c +:+ escape s'
  end.

Definition quote (s : string) : string :=
  String Value.dquote (escape s +:+ String Value.dquote "").

(** [JSON.stringify(v)]; [None] is the result [undefined].  A member
    whose value is [undefined] is left out of an object and printed as
    [null] in an array. *)
Fixpoint stringify (v : JSValue) : option string :=
  match v with
  | JUndefined => None
  | JNull => Some "null"
  | JBool true => Some "true"
  | JBool false => Some "false"
  | JNum n => Some (Value.num_to_string n)
  | JStr s => Some (quote s)
  | JArr items =>
      Some ("[" +:+
            Value.join "," (List.map (fun x => default "null" (stringify x)) items)
            +:+ "]")
  | JObj fields =>
      Some ("{" +:+
            Value.join ","
              (List.flat_map (fun kv =>
                               match kv with
                               | (k, x) =>
                                   match stringify x with
                                   | Some t => [quote k +:+ ":" +:+ t]
                                   | None => []
                                   end
                               end) fields)
            +:+ "}")
  end.

End Json.

(** ** Templates *)

Module Template.

(** The character class [[$\w\d.-]]. *)
Definition is_expression_char (c : ascii) : bool :=
  let n := nat_of_ascii c in
  ((48 <=? n) && (n <=? 57))%nat        (* 0-9 *)
  || ((65 <=? n) && (n <=? 90))%nat     (* A-Z *)
  || ((97 <=? n) && (n <=? 122))%nat    (* a-z *)
  || Ascii.eqb c "_"%char
  || Ascii.eqb c "$"%char
  || Ascii.eqb c "."%char
  || Ascii.eqb c "-"%char.

(** The longest prefix made of characters of the class, and what follows. *)
Fixpoint span_expression (s : string) : string * string :=
  match s with
  | EmptyString => ("", "")
  | String c s' =>
      if is_expression_char c then
        let (e, rest) := span_expression s' in (String c e, rest)
      else ("", s)
  end.

(** A match of [/\{([$\w\d.-]+)\}/] at the head of [s]: the captured
    expression and what follows the closing brace. *)
Definition match_token (s : string) : option (string * string) :=
  match s with
  | String c s1 =>
      if Ascii.eqb c "{"%char then
        match span_expression s1 with
        | (String e0 e, String d rest) =>
            if Ascii.eqb d "}"%char then Some (String e0 e, rest) else None
        | _ => None
        end
      else None
  | EmptyString => None
  end.

(** The text of a token with expression [e]. *)
Definition token_text (e : string) : string := "{" +:+ e +:+ "}".

(** [s.replace(/\{([$\w\d.-]+)\}/g, replacer)]: from left to right, a
    match is replaced by what the replacer returns for it and the search
    goes on behind the match; a character at which no match starts is
    copied.  [fuel] bounds the number of steps. *)
Fixpoint replace_fuel (fuel : nat) (replacer : string → string → Exn string)
  (s : string) : Exn string :=
  match fuel with
  | O => Ok s
  | S fuel' =>
      match match_token s with
      | Some (e, rest) =>
          r ← replacer (token_text e) e;
          t ← replace_fuel fuel' replacer rest;
          Ok (r +:+ t)
      | None =>
          match s with
          | EmptyString => Ok ""
          | String c s' =>
              t ← replace_fuel fuel' replacer s';
              Ok (String c t)
          end
      end
  end.

Definition replace (replacer : string → string → Exn string) (s : string)
  : Exn string :=
  replace_fuel (S (String.length s)) replacer s.

(** [expression.split('.')] *)
Fixpoint split (sep : ascii) (s : string) : list string :=
  match s with
  | EmptyString => [""]
  | String c s' =>
      if Ascii.eqb c sep then "" :: split sep s'
      else match split sep s' with
           | [] => [String c ""]
           | h :: t => String c h :: t
           end
  end.

(** The loop of the replacer:
    [for (let key of keys) { node = node[key];
                             if (node === undefined) return text; }
     return node;]
    [None] stands for the early [return text]. *)
Fixpoint walk (node : JSValue) (keys : list string) : Exn (option JSValue) :=
  match keys with
  | [] => Ok (Some node)
  | key :: rest =>
      next ← Value.get_property node key;
      match next with
      | JUndefined => Ok None
      | _ => walk next rest
      end
  end.

(** The replacer passed to [replace] by [_render]. *)
Definition replacer (data : JSValue) (text expression : string) : Exn string :=
  found ← walk data (split "."%char expression);
  match found with
  | None => Ok text
  | Some node => Ok (Value.to_string node)
  end.

(** [data = data || Object.create(null)] followed by the substitution. *)
Definition substitute (template : string) (data : JSValue) : Exn string :=
  let data := if Value.truthy data then data else JObj [] in
  replace (replacer data) template.

End Template.

(** ** File system and platform *)

(** What a path of the file system leads to; the file system itself is
    a [gmap] from paths to nodes. *)
Inductive FsNode : Type :=
| File (content : string)
| Directory.

Module FS.

(** [FS.existsSync(p)] *)
Definition existsSync (fs : gmap string FsNode) (p : string) : bool :=
  bool_decide (is_Some (fs !! p)).

(** [FS.readFileSync(p, 'utf-8')] *)
Definition readFileSync (fs : gmap string FsNode) (p : string) : Exn string :=
  match fs !! p with
  | Some (File content) => Ok content
  | Some Directory => Throw (Untyped "EISDIR")
  | None => Throw (Untyped "ENOENT")
  end.

(** The part of [FS.Stats] the framework reads. *)
Record Stats : Type := mkStats {
  isFile : bool;
  size : nat
}.

(** [FS.statSync(p)] *)
Definition statSync (fs : gmap string FsNode) (p : string) : Exn Stats :=
  match fs !! p with
  | Some (File content) => Ok (mkStats true (String.length content))
  | Some Directory => Ok (mkStats false 0)
  | None => Throw (Untyped "ENOENT")
  end.

End FS.

(** What the framework takes from its platform: [Path.join],
    [Path.extname] and the table [mime.json]. *)
Record Platform : Type := mkPlatform {
  Path_join : string → string → string;
  Path_extname : string → string;
  mimeMap : gmap string string
}.

(** ** Template cache and rendering *)

(** One access to the file system made while rendering. *)
Inductive FsAccess : Type :=
| Exists (p : string)
| Read (p : string).

(** What a call of [_render] leaves behind: its result ([None] is
    [undefined]), the template cache and the file-system calls made. *)
Record Rendered : Type := mkRendered {
  html : Exn (option string);
  cache_after : gmap string (option string);
  accesses : list FsAccess
}.

(** [Server._render(view, data)] *)
Definition _render (pf : Platform) (fs : gmap string FsNode) (srv : Server)
  (view : string) (data : JSValue) : Rendered :=
  let view := if Js.str_eq view "/" then view +:+ "index" else view in
  let cache := _templateCache srv in
  match cache !! view with
  | Some cached =>
      (* hop.call(this._templateCache, view) *)
      match cached with
      | Some template =>
          if Js.str_eq template "" then mkRendered (Ok None) cache []
          else mkRendered (Some <$> Template.substitute template data) cache []
      | None => mkRendered (Ok None) cache []
      end
  | None =>
      let viewPath := Path_join pf (views srv) (view +:+ ".html") in
      if FS.existsSync fs viewPath then
        match FS.readFileSync fs viewPath with
        | Ok template =>
            mkRendered (Some <$> Template.substitute template data)
                       (<[view := Some template]> cache)
                       [Exists viewPath; Read viewPath]
        | Throw e => mkRendered (Throw e) cache [Exists viewPath; Read viewPath]
        end
      else mkRendered (Ok None) (<[view := None]> cache) [Exists viewPath]
  end.

(** The server with the template cache left by a rendering. *)
Definition with_cache (srv : Server) (cache : gmap string (option string)) : Server :=
  mkServer (routes srv) (views srv) (errorViewsFolder srv) cache.

(** ** Result serializer and error handler *)

(** What handling a result or an error leaves behind: the response, the
    server (its template cache) and the exception that escaped, if any. *)
Record Handled : Type := mkHandled {
  response : ServerResponse;
  server_after : Server;
  uncaught : option Thrown
}.

(** [Server._handleResult(path, res, result)] *)
Definition _handleResult (pf : Platform) (fs : gmap string FsNode) (srv : Server)
  (path : string) (res : ServerResponse) (result : Terminal) : Handled :=
  if _headerSent res then mkHandled res srv None
  else
    match result with
    | AResponse r => mkHandled (applyTo r res) srv None
    | AValue v =>
        let r := _render pf fs srv path v in
        let srv' := with_cache srv (cache_after r) in
        match html r with
        | Throw e => mkHandled res srv' (Some e)
        | Ok None =>
            (* let json = JSON.stringify(result);
               if (json) { res.setHeader(...); res.write(json); }
               res.end(); *)
            let res' :=
              match Json.stringify v with
              | Some json =>
                  if negb (Js.str_eq json "")
                  then write json (setHeader "Content-Type" "application/json" res)
                  else res
              | None => res
              end in
            mkHandled (end_ res') srv' None
        | Ok (Some h) =>
            mkHandled (end_ (write h (setHeader "Content-Type" "text/html" res)))
                      srv' None
        end
    end.

(** The fields of an error object, as data for an error view. *)
Definition error_data (error : Thrown) : JSValue :=
  match error with
  | ExpectedError message statusCode =>
      JObj [("message", JStr message); ("statusCode", JNum statusCode)]
  | NotFoundError message path =>
      JObj [("message", JStr message); ("statusCode", JNum 404);
            ("path", JStr path)]
  | Untyped detail => JStr detail
  end.

(** The end of [_handleError]:
    [res.statusCode = statusCode; res.setHeader('Content-Type', 'text/html');
     res.write(html); res.end()] *)
Definition error_page (statusCode : Z) (html : string) (res : ServerResponse)
  : ServerResponse :=
  end_ (write html (setHeader "Content-Type" "text/html"
                              (setStatusCode statusCode res))).

(** [Server._handleError(path, res, error)]; the error is logged with
    [console.error] at the end, which leaves no trace in the response. *)
Definition _handleError (pf : Platform) (fs : gmap string FsNode) (srv : Server)
  (path : string) (res : ServerResponse) (error : Thrown) : Handled :=
  if _headerSent res then mkHandled res srv None
  else
    let expected (message : string) (statusCode : Z) :=
      (* html = this._render(`${this.errorViewsFolder}/${statusCode}`, error)
                || error.message *)
      let r := _render pf fs srv
                 (errorViewsFolder srv +:+ "/" +:+ Value.num_to_string statusCode)
                 (error_data error) in
      let srv' := with_cache srv (cache_after r) in
      match html r with
      | Throw e => mkHandled res srv' (Some e)
      | Ok (Some h) =>
          mkHandled
            (error_page statusCode (if Js.str_eq h "" then message else h) res)
            srv' None
      | Ok None => mkHandled (error_page statusCode message res) srv' None
      end in
    match error with
    | ExpectedError message statusCode => expected message statusCode
    | NotFoundError message _ => expected message 404
    | Untyped _ => mkHandled (error_page 500 "Server Error" res) srv None
    end.

(** ** Dispatcher *)

(** How the loop [next] of [_handleRequest] leaves: by one of its calls
    to [_handleError] or [_handleResult], with the arguments of the call,
    or not at all while the promise of a middleware stays pending. *)
Inductive Exit : Type :=
| ToError (path : string) (res : ServerResponse) (error : Thrown)
| ToResult (path : string) (res : ServerResponse) (result : Terminal)
| Waiting (res : ServerResponse).

(** One call of a middleware: the index of its route in [routes], the
    request object it was given, the response before and after the call
    and the outcome of the call. *)
Record Call : Type := mkCall {
  call_index : nat;
  call_request : Request;
  call_before : ServerResponse;
  call_after : ServerResponse;
  call_outcome : Invocation
}.

(** [req.path = route.extendable && route.path !== '/' ?
       pathname.substr(route.path.length) : pathname] *)
Definition request_path (route : Route) (pathname : string) : string :=
  if extendable route && negb (Js.str_eq (path route) "/")
  then Js.substr_from pathname (Js.length (path route))
  else pathname.

(** The closure [next], from the route at [index] on; [rest] is
    [routes.slice(index)].  The result lists the middleware calls in the
    order they are made and tells how the loop is left. *)
Fixpoint next (rest : list Route) (index : nat) (req_method pathname : string)
  (query : gmap string string) (res : ServerResponse) : list Call * Exit :=
  match rest with
  | [] =>
      ([], ToError pathname res (NotFoundError "Page Not Found" pathname))
  | route :: rest' =>
      if skipped route req_method pathname then
        next rest' (S index) req_method pathname query res
      else
        let req := Req.mk req_method (request_path route pathname) query in
        let (res', invocation) := middleware route req res in
        let continue :=
          match invocation with
          | Threw error => ([], ToError pathname res' error)
          | Returned (Plain TheRequest) =>
              next rest' (S index) req_method pathname query res'
          | Returned (Plain (Final result)) => ([], ToResult pathname res' result)
          | Returned (APromise (Fulfilled TheRequest)) =>
              next rest' (S index) req_method pathname query res'
          | Returned (APromise (Fulfilled (Final result))) =>
              ([], ToResult pathname res' result)
          | Returned (APromise (Rejected reason)) =>
              ([], ToError pathname res' reason)
          | Returned (APromise Pending) => ([], Waiting res')
          end in
        (mkCall index req res res' invocation :: continue.1, continue.2)
  end.

(** What one request leaves behind. *)
Record Dispatched : Type := mkDispatched {
  calls : list Call;
  exit : Exit;
  handled : Handled
}.

(** [Server._handleRequest(req, res)] for a request with the given
    method, whose URL has the given path name and query. *)
Definition _handleRequest (pf : Platform) (fs : gmap string FsNode) (srv : Server)
  (req_method pathname : string) (query : gmap string string)
  (res : ServerResponse) : Dispatched :=
  let (trace, how) := next (routes srv) 0 req_method pathname query res in
  mkDispatched trace how
    match how with
    | ToError p r error => _handleError pf fs srv p r error
    | ToResult p r result => _handleResult pf fs srv p r result
    | Waiting r => mkHandled r srv None
    end.

(** Whether the outcome of a middleware call is the request itself. *)
Definition passes (invocation : Invocation) : bool :=
  match invocation with
  | Returned (Plain TheRequest) => true
  | Returned (APromise (Fulfilled TheRequest)) => true
  | _ => false
  end.

(** How [next] leaves after a call whose outcome is not the request:
    towards [_handleError] for an exception or a rejection, towards
    [_handleResult] for a value, nowhere for a pending promise. *)
Definition leave (pathname : string) (res : ServerResponse)
  (invocation : Invocation) : Exit :=
  match invocation with
  | Threw error => ToError pathname res error
  | Returned (Plain (Final result)) => ToResult pathname res result
  | Returned (APromise (Fulfilled (Final result))) => ToResult pathname res result
  | Returned (APromise (Rejected reason)) => ToError pathname res reason
  | Returned (APromise Pending) => Waiting res
  | Returned (Plain TheRequest) | Returned (APromise (Fulfilled TheRequest)) =>
      Waiting res
  end.

(** The call [next] makes to a route it does not pass over. *)
Definition call_to (route : Route) (index : nat) (req_method pathname : string)
  (query : gmap string string) (res : ServerResponse) : Call :=
  let req := Req.mk req_method (request_path route pathname) query in
  mkCall index req res (middleware route req res).1 (middleware route req res).2.

(** The response as the calls of a trace leave it, starting from [res]. *)
Definition response_left (trace : list Call) (res : ServerResponse) : ServerResponse :=
  match last trace with
  | Some c => call_after c
  | None => res
  end.

(** ** Static files *)

Module Static.

(** An element of [candidates]. *)
Record Candidate : Type := mkCandidate {
  path : string;
  gzipped : bool
}.

(** A candidate merged with what the filter found for it. *)
Record Target : Type := mkTarget {
  target_path : string;
  target_gzipped : bool;
  size : nat
}.

(** [assign(candidate, {size})]: [size] is not a key of a candidate and is
    copied into it. *)
Definition assign (target : Candidate) (source : nat) : Target :=
  mkTarget (path target) (gzipped target) source.

(** [findAndMerge(items, filter)] *)
Fixpoint findAndMerge {T U V : Type} (merge : T → U → V) (items : list T)
  (filter : T → option U) : option V :=
  match items with
  | [] => None
  | item :: rest =>
      match filter item with
      | Some ret => Some (merge item ret)
      | None => findAndMerge merge rest filter
      end
  end.

(** The filter given to [findAndMerge]: the size of a regular file. *)
Definition regular_file_size (fs : gmap string FsNode) (candidate : Candidate)
  : option nat :=
  match FS.statSync fs (path candidate) with
  | Ok stats => if FS.isFile stats then Some (FS.size stats) else None
  | Throw _ => None
  end.

(** [if (defaultPath && defaultPath[0] !== '/') defaultPath = '/' + defaultPath] *)
Definition normalize_default (defaultPath : string) : string :=
  match defaultPath with
  | EmptyString => defaultPath
  | String c _ => if Ascii.eqb c Js.slash then defaultPath else "/" +:+ defaultPath
  end.

(** [Path.join(path, req.path === '/' ? defaultPath : req.path)] *)
Definition file_path (pf : Platform) (path defaultPath req_path : string) : string :=
  let defaultPath := normalize_default defaultPath in
  let urlPath := if Js.str_eq req_path "/" then defaultPath else req_path in
  Path_join pf path urlPath.

(** [stream.pipe(res)] for the stream [FS.createReadStream(p)]: the
    content of the file is written and the response is ended. *)
Definition pipe (fs : gmap string FsNode) (p : string) (res : ServerResponse)
  : ServerResponse :=
  match fs !! p with
  | Some (File content) => end_ (write content res)
  | _ => end_ res
  end.

(** [Server.static(path, defaultPath)]; the promise it returns is taken
    at the end of the stream. *)
Definition static (pf : Platform) (fs : gmap string FsNode)
  (path defaultPath : string) : Middleware :=
  fun req res =>
    let filePath := file_path pf path defaultPath (Req.path req) in
    let candidates := [ mkCandidate (filePath +:+ ".gz") true;
                        mkCandidate filePath false ] in
    let target := findAndMerge assign candidates (regular_file_size fs) in
    match target with
    | None => (res, Returned (APromise (Fulfilled TheRequest)))
    | Some target =>
        let res1 := if target_gzipped target
                    then setHeader "Content-Encoding" "gzip" res else res in
        let res2 := setHeader "Content-Length"
                      (Value.num_to_string (Z.of_nat (size target))) res1 in
        let extname := Path_extname pf filePath in
        let res3 := setHeader "Content-Type"
                      (match mimeMap pf !! extname with
                       | Some mime => mime
                       | None => "application/octet-stream"
                       end) res2 in
        (pipe fs (target_path target) res3,
         Returned (APromise (Fulfilled (Final (AValue JUndefined)))))
    end.

(** [Server.static(path)], with the default document [/index.html]. *)
Definition static_default (pf : Platform) (fs : gmap string FsNode)
  (path : string) : Middleware :=
  static pf fs path "/index.html".

End Static.

(** ** Notions used to state the properties *)

(** The name under which [_render] looks a view up: the root path stands
    for the view [index]. *)
Definition view_name (view : string) : string :=
  if Js.str_eq view "/" then "/index" else view.

(** The file of a view. *)
Definition view_file (pf : Platform) (srv : Server) (view : string) : string :=
  Path_join pf (views srv) (view_name view +:+ ".html").

(** Whether a template exists for a view, as the server can know it: from
    its cache once the view was looked up, from the file system before. *)
Inductive ViewState : Type :=
| Present (template : string)
| Absent
| Unreadable.

Definition view_state (pf : Platform) (fs : gmap string FsNode) (srv : Server)
  (view : string) : ViewState :=
  match _templateCache srv !! view_name view with
  | Some (Some template) => Present template
  | Some None => Absent
  | None =>
      match fs !! view_file pf srv view with
      | Some (File template) => Present template
      | Some Directory => Unreadable
      | None => Absent
      end
  end.

(** The name of the error view for a status code. *)
Definition error_view (srv : Server) (code : Z) : string :=
  errorViewsFolder srv +:+ "/" +:+ Value.num_to_string code.

(** The status code and the message of a typed error. *)
Definition typed_error (error : Thrown) : option (Z * string) :=
  match error with
  | ExpectedError message code => Some (code, message)
  | NotFoundError message _ => Some (404, message)
  | Untyped _ => None
  end.

(** A string is an expression of a token: not empty and made of the
    characters of the class. *)
Fixpoint all_expression_chars (e : string) : bool :=
  match e with
  | EmptyString => true
  | String c e' => Template.is_expression_char c && all_expression_chars e'
  end.

Definition is_expression (e : string) : bool :=
  negb (Js.str_eq e "") && all_expression_chars e.

(** A string without an opening brace. *)
Fixpoint brace_free (s : string) : bool :=
  match s with
  | EmptyString => true
  | String c s' => negb (Ascii.eqb c "{"%char) && brace_free s'
  end.

(** The data the replacer walks through. *)
Definition template_data (data : JSValue) : JSValue :=
  if Value.truthy data then data else JObj [].

(** The servers obtained from a fresh one by a sequence of registrations. *)
Definition register (registrations : list RouteOptions) (srv : Server) : Server :=
  foldl (fun s options => add options s) srv registrations.

(** ** Example servers, middlewares and file systems *)

Module Demo.

(** A platform whose [Path.join] puts a slash between its arguments when
    the second does not start with one, and whose [Path.extname] is the
    part of the path from its last dot on. *)
Fixpoint extname_from (s : string) (found : string) : string :=
  match s with
  | EmptyString => found
  | String c s' =>
      if Ascii.eqb c "."%char then extname_from s' s
      else if Ascii.eqb c Js.slash then extname_from s' ""
      else extname_from s' found
  end.

Definition platform : Platform :=
  mkPlatform
    (fun a b => if Js.starts_with "/" b then a +:+ b else a +:+ "/" +:+ b)
    (fun p => extname_from p "")
    (<[".html" := "text/html"]> (<[".js" := "application/javascript"]> ∅)).

(** A middleware that declines every request and leaves the response
    alone. *)
Definition decline : Middleware :=
  fun _ res => (res, Returned (Plain TheRequest)).

(** A middleware that answers by itself and then declines. *)
Definition answer_and_decline : Middleware :=
  fun _ res => (end_ (write "hi" res), Returned (Plain TheRequest)).

(** The object [{sn: "X1", time: 123}] and its JSON text. *)
Definition info : JSValue := JObj [("sn", JStr "X1"); ("time", JNum 123)].

Definition info_json : string :=
  let q := String Value.dquote "" in
  "{" +:+ q +:+ "sn" +:+ q +:+ ":" +:+ q +:+ "X1" +:+ q +:+ ","
      +:+ q +:+ "time" +:+ q +:+ ":123}".

(** A middleware that returns that object. *)
Definition device_info : Middleware :=
  fun _ res => (res, Returned (Plain (Final (AValue info)))).

(** A middleware that returns the path it was given. *)
Definition echo_path : Middleware :=
  fun req res => (res, Returned (Plain (Final (AValue (JStr (Req.path req)))))).

Definition server : Server := new_Server "views" "error".

(** A view directory with the template [widget]. *)
Definition views_fs : gmap string FsNode :=
  <["views/widget.html" := File "Hello {user.name}!"]> ∅.

(** A view directory with an empty template [widget] and an empty error
    view for the status 404. *)
Definition empty_views_fs : gmap string FsNode :=
  <["views/widget.html" := File ""]> (<["views/error/404.html" := File ""]> ∅).

(** A view directory in which the path of the error view for the status
    404 is a directory. *)
Definition unreadable_views_fs : gmap string FsNode :=
  <["views/error/404.html" := Directory]> ∅.

(** A directory of static files: [a.html] with a gzipped sibling, and a
    file with an extension the MIME table does not know. *)
Definition static_fs : gmap string FsNode :=
  <["static/a.html" := File "<p>a</p>"]>
  (<["static/a.html.gz" := File "gz"]>
  (<["static/b.unknown" := File "data"]>
  (<["static/dir" := Directory]> ∅))).

(** The data [{user: {name: "Ann"}}]. *)
Definition ann : JSValue := JObj [("user", JObj [("name", JStr "Ann")])].

(** A server with one route, whose middleware answers and declines. *)
Definition talkative_server : Server := use "/" answer_and_decline server.

(** A server with one route, whose middleware declines. *)
Definition declining_server : Server := use "/" decline server.

(** The device information application:
    [server.use('/', Server.static('static')); server.get('/', ...)]. *)
Definition device_application (fs : gmap string FsNode) : Server :=
  get "/" device_info
      (use "/" (Static.static_default platform fs "static") server).

(** A server that mounts [echo_path] below [/api]. *)
Definition api_server : Server := use "/api" echo_path server.

End Demo.

(** ** Further parts of the source *)

Module Obj.

(** [key in target], for an object given by its own properties and by
    the keys [inherited] that its prototype chain holds: the operator
    finds both. *)
Definition has (inherited : string → bool) (fields : list (string * JSValue))
  (key : string) : bool :=
  existsb (fun kv => Js.str_eq kv.1 key) fields || inherited key.

(** [Object.keys(source)]: every key once, in the order of first
    appearance. *)
Fixpoint keys (fields : list (string * JSValue)) : list string :=
  match fields with
  | [] => []
  | (k, _) :: rest => k :: List.filter (fun k' => negb (Js.str_eq k' k)) (keys rest)
  end.

(** [target[key] = value], for a key that [target] neither owns nor
    inherits. *)
Definition set (fields : list (string * JSValue)) (key : string) (value : JSValue)
  : list (string * JSValue) :=
  fields ++ [(key, value)].

(** The helper [assign(target, source)]:
    [for (let key of Object.keys(source)) {
       if (!(key in target)) { target[key] = source[key]; } }
     return target;]
    [inherited] tells the keys the prototype chain of [target] holds;
    [source[key]] reads an own property, [key] being one of
    [Object.keys(source)]. *)
Definition assign (inherited : string → bool)
  (target source : list (string * JSValue)) : list (string * JSValue) :=
  fold_left
    (fun t key =>
       if has inherited t key then t
       else set t key (default JUndefined (Value.own_property source key)))
    (keys source) target.

End Obj.

Module Earlier.

(** [res.setHeader(name, value)] where the source catches what it throws.
    [throws] is what the [setHeader] of the runtime throws for a header
    and a response, if anything. *)
Definition try_setHeader
  (throws : string → string → ServerResponse → option Thrown)
  (name value : string) (res : ServerResponse) : Exn ServerResponse :=
  match throws name value res with
  | Some error => Throw error
  | None => Ok (setHeader name value res)
  end.

(** [Server.static(path, defaultPath)] of the earlier version of
    [index.ts], which knows no gzipped files:
    [try { stats = FS.statSync(filePath);
           if (!stats.isFile()) { resolve(req); return; }
           res.setHeader('Content-Length', stats.size.toString()); }
     catch (error) { resolve(req); return; }
     res.setHeader('Content-Type', ...);
     stream.pipe(res); res.on('end', () => resolve());]
    The [try] covers the first [setHeader]; what the second throws is
    thrown inside the executor of the promise, which is then rejected. *)
Definition static (throws : string → string → ServerResponse → option Thrown)
  (pf : Platform) (fs : gmap string FsNode)
  (path defaultPath : string) : Middleware :=
  fun req res =>
    let filePath := Static.file_path pf path defaultPath (Req.path req) in
    match FS.statSync fs filePath with
    | Throw _ => (res, Returned (APromise (Fulfilled TheRequest)))
    | Ok stats =>
        if negb (FS.isFile stats)
        then (res, Returned (APromise (Fulfilled TheRequest)))
        else
          match try_setHeader throws "Content-Length"
                  (Value.num_to_string (Z.of_nat (FS.size stats))) res with
          | Throw _ => (res, Returned (APromise (Fulfilled TheRequest)))
          | Ok res1 =>
              let extname := Path_extname pf filePath in
              match try_setHeader throws "Content-Type"
                      (match mimeMap pf !! extname with
                       | Some mime => mime
                       | None => "application/octet-stream"
                       end) res1 with
              | Throw error => (res1, Returned (APromise (Rejected error)))
              | Ok res2 =>
                  (Static.pipe fs filePath res2,
                   Returned (APromise (Fulfilled (Final (AValue JUndefined)))))
              end
          end
    end.

(** A [setHeader] that throws once the headers are sent, as the one of
    Node does. *)
Definition throws_when_sent (name value : string) (res : ServerResponse)
  : option Thrown :=
  if _headerSent res then Some (Untyped "ERR_HTTP_HEADERS_SENT") else None.

End Earlier.



(** The server with other routes in place of its own. *)
Definition with_routes (srv : Server) (rs : list Route) : Server :=
  mkServer rs (views srv) (errorViewsFolder srv) (_templateCache srv).

(** What a call shows apart from the index of its route and the raw
    outcome: the request given, the response before and after, and whether
    the middleware declined. *)
Definition call_view (c : Call) : Request * ServerResponse * ServerResponse * bool :=
  (call_request c, call_before c, call_after c, passes (call_outcome c)).

(** The response an exit hands over. *)
Definition exit_response (e : Exit) : ServerResponse :=
  match e with
  | ToError _ r _ => r
  | ToResult _ r _ => r
  | Waiting r => r
  end.

(** What is left of a request, apart from the routes kept in the server:
    how the loop was left, the response, the template cache and the
    exception that escaped. *)
Definition outcome_of (d : Dispatched)
  : Exit * ServerResponse * gmap string (option string) * option Thrown :=
  (exit d, response (handled d), _templateCache (server_after (handled d)),
   uncaught (handled d)).

(** The objects behind a candidate and a target of the static
    middleware. *)
Definition candidate_object (c : Static.Candidate) : list (string * JSValue) :=
  [("path", JStr (Static.path c)); ("gzipped", JBool (Static.gzipped c))].

Definition target_object (t : Static.Target) : list (string * JSValue) :=
  [("path", JStr (Static.target_path t));
   ("gzipped", JBool (Static.target_gzipped t));
   ("size", JNum (Z.of_nat (Static.size t)))].

(** * Properties *)

(** ** Strings *)

Lemma append_cons (c : ascii) (s t : string) :
  String c s +:+ t = String c (s +:+ t).
Proof. reflexivity. Qed.

Lemma append_empty_l (t : string) : "" +:+ t = t.
Proof. reflexivity. Qed.

Lemma append_empty_r (s : string) : s +:+ "" = s.
Proof. induction s as [|c s IH]; [reflexivity|]. rewrite append_cons. by f_equal. Qed.

Lemma append_assoc (s t u : string) : (s +:+ t) +:+ u = s +:+ (t +:+ u).
Proof.
  induction s as [|c s IH]; [reflexivity|].
  rewrite !append_cons. by f_equal.
Qed.

Lemma str_eq_true (a b : string) : Js.str_eq a b = true ↔ a = b.
Proof. apply String.eqb_eq. Qed.

Lemma str_eq_false (a b : string) : Js.str_eq a b = false ↔ a ≠ b.
Proof. apply String.eqb_neq. Qed.

Lemma starts_with_iff (p s : string) :
  Js.starts_with p s = true ↔ ∃ rest, s = p +:+ rest.
Proof.
  revert s. induction p as [|a p IH]; intros s; simpl.
  - split; [intros _; by exists s | done].
  - destruct s as [|b s].
    + split; [done | intros [rest Hrest]; discriminate].
    + destruct (Ascii.eqb a b) eqn:Hab.
      * apply Ascii.eqb_eq in Hab as ->. rewrite IH.
        split; intros [rest Hrest]; exists rest.
        -- rewrite append_cons. by f_equal.
        -- rewrite append_cons in Hrest. by injection Hrest.
      * apply Ascii.eqb_neq in Hab.
        split; [done | intros [rest Hrest]].
        rewrite append_cons in Hrest. injection Hrest as Hba _. congruence.
Qed.

Lemma indexOf_from_range (p s : string) (k : Z) :
  Js.indexOf_from s p k = -1 ∨ k ≤ Js.indexOf_from s p k.
Proof.
  revert k. induction s as [|c s IH]; intros k; simpl.
  - destruct (Js.starts_with p ""); [right; lia | by left].
  - destruct (Js.starts_with p (String c s)); [right; lia|].
    destruct (IH (k + 1)) as [H|H]; [by left | right; lia].
Qed.

(** [s.indexOf(p) === 0] says that [s] starts with [p]. *)
Lemma indexOf_zero (s p : string) :
  Js.indexOf s p = 0 ↔ Js.starts_with p s = true.
Proof.
  unfold Js.indexOf. destruct s as [|c s]; simpl.
  - destruct (Js.starts_with p ""); [done | split; [lia | done]].
  - destruct (Js.starts_with p (String c s)); [done|].
    destruct (indexOf_from_range p s (0 + 1)) as [H|H];
      split; first [lia | done].
Qed.

Lemma ends_with_slash_iff (p : string) :
  Js.ends_with_slash p = true ↔ ∃ q, p = q +:+ "/".
Proof.
  induction p as [|c p IH].
  - split; [done | intros [[|d q] Hq]; discriminate].
  - destruct p as [|d p].
    + simpl. rewrite Ascii.eqb_eq. split.
      * intros ->. by exists "".
      * intros [[|e q] Hq].
        -- cbv in Hq. by injection Hq.
        -- rewrite append_cons in Hq. injection Hq as _ Hq.
           destruct q; discriminate.
    + change (Js.ends_with_slash (String c (String d p)))
        with (Js.ends_with_slash (String d p)).
      rewrite IH. split.
      * intros [q ->]. exists (String c q). by rewrite append_cons.
      * intros [[|e q] Hq]; [discriminate|].
        rewrite append_cons in Hq. injection Hq as _ Hq. by exists q.
Qed.

Lemma length_append (s t : string) :
  String.length (s +:+ t) = (String.length s + String.length t)%nat.
Proof.
  induction s as [|c s IH]; [reflexivity|].
  rewrite append_cons. simpl. by rewrite IH.
Qed.

Lemma take_append (q t : string) : Js.take (q +:+ t) (String.length q) = q.
Proof.
  induction q as [|c q IH]; [reflexivity|].
  rewrite append_cons. simpl. by rewrite IH.
Qed.

Lemma substr_drop_last (q : string) :
  Js.substr (q +:+ "/") 0 (Js.length (q +:+ "/") - 1) = q.
Proof.
  unfold Js.substr, Js.length. simpl Js.substr_from.
  rewrite length_append. simpl String.length.
  replace (String.length q + 1 - 1)%nat with (String.length q) by lia.
  apply take_append.
Qed.

Lemma substr_from_append (p rest : string) :
  Js.substr_from (p +:+ rest) (Js.length p) = rest.
Proof.
  induction p as [|c p IH]; [reflexivity|].
  rewrite append_cons. exact IH.
Qed.

Lemma append_char_inj (c : ascii) (q q' : string) :
  q +:+ String c "" = q' +:+ String c "" → q = q'.
Proof.
  revert q'. induction q as [|a q IH]; intros [|b q'] H;
    rewrite ?append_cons in H.
  - done.
  - cbv in H. injection H as _ H. destruct q'; discriminate.
  - change ("" +:+ String c "") with (String c "") in H.
    injection H as _ H. destruct q; discriminate.
  - injection H as -> H. f_equal. by apply IH.
Qed.

(** ** Route registration and matching *)

Lemma route_of_root (m : option string) (e : bool) (h : Middleware) :
  route_of (mkOptions m "/" e h) = mkRoute m "/" e h "/".
Proof. reflexivity. Qed.

Lemma route_of_trailing_slash (m : option string) (q : string) (e : bool)
  (h : Middleware) :
  q ≠ "" →
  route_of (mkOptions m (q +:+ "/") e h) = mkRoute m q e h (q +:+ "/").
Proof.
  intros Hq. unfold route_of. simpl opt_path.
  destruct (Js.str_eq (q +:+ "/") "/") eqn:Hroot.
  - apply str_eq_true in Hroot. destruct q as [|c q]; [done|].
    rewrite append_cons in Hroot. injection Hroot as _ Hroot.
    destruct q; discriminate.
  - assert (Js.ends_with_slash (q +:+ "/") = true) as ->.
    { apply ends_with_slash_iff. by exists q. }
    simpl. by rewrite substr_drop_last.
Qed.

Lemma route_of_plain (m : option string) (p : string) (e : bool) (h : Middleware) :
  p ≠ "/" → Js.ends_with_slash p = false →
  route_of (mkOptions m p e h) = mkRoute m p e h (p +:+ "/").
Proof.
  intros Hroot Hslash. unfold route_of. simpl opt_path.
  apply str_eq_false in Hroot. by rewrite Hroot, Hslash.
Qed.

(** Every route built by [add] has its path as a prefix of its path with
    the ending slash. *)
Lemma route_of_prefix (options : RouteOptions) :
  path (route_of options) = "/" ∨
  pathWithEndingSlash (route_of options) = path (route_of options) +:+ "/".
Proof.
  destruct options as [m p e h].
  destruct (decide (p = "/")) as [->|Hroot]; [by left|].
  destruct (Js.ends_with_slash p) eqn:Hslash.
  - apply ends_with_slash_iff in Hslash as [q ->].
    destruct (decide (q = "")) as [->|Hq]; [done|].
    rewrite route_of_trailing_slash by done. by right.
  - rewrite route_of_plain by done. by right.
Qed.

(** The test of [next], read positively. *)
Lemma candidate_iff (route : Route) (req_method pathname : string) :
  candidate route req_method pathname = true ↔
  (method route = None ∨ method route = Some "" ∨
   method route = Some req_method) ∧
  (pathname = path route ∨
   (extendable route = true ∧
    ∃ rest, pathname = pathWithEndingSlash route +:+ rest)).
Proof.
  unfold candidate, skipped.
  set (wrong_method := truthy_method _ && _).
  set (wrong_path := negb (Js.str_eq pathname _) && _).
  assert (wrong_method = false ↔
          method route = None ∨ method route = Some "" ∨
          method route = Some req_method) as Hm.
  { subst wrong_method. destruct (method route) as [s|]; simpl.
    - rewrite andb_false_iff, !negb_false_iff, !str_eq_true. split.
      + intros [->| ->]; auto.
      + intros [?|[?|?]]; simplify_eq; auto.
    - split; auto. }
  assert (wrong_path = false ↔
          pathname = path route ∨
          (extendable route = true ∧
           ∃ rest, pathname = pathWithEndingSlash route +:+ rest)) as Hp.
  { subst wrong_path.
    rewrite andb_false_iff, orb_false_iff, !negb_false_iff.
    by rewrite str_eq_true, Z.eqb_eq, indexOf_zero, starts_with_iff. }
  by rewrite negb_true_iff, orb_false_iff, Hm, Hp.
Qed.

(** C3: [add] (and so [use], [get], [post]) appends one route to the end
    of the route list, with the method, flag and middleware it was given.
    For the pattern [/] both paths of the route are [/]; for a pattern
    [q/] the exact path is [q] and the prefix path is the pattern; for any
    other pattern [p] the exact path is [p] and the prefix path is [p/].
    Hence [use('/foo', h)] and [use('/foo/', h)] register routes with the
    same paths, which accept the same requests. *)
Theorem C3_add_normalizes_pattern (m : option string) (p : string) (e : bool)
  (h : Middleware) (srv : Server) :
  (∃ route,
     routes (add (mkOptions m p e h) srv) = routes srv ++ [route] ∧
     method route = m ∧ extendable route = e ∧ middleware route = h ∧
     (p = "/" → path route = "/" ∧ pathWithEndingSlash route = "/") ∧
     (p ≠ "/" → ∀ q, p = q +:+ "/" →
        path route = q ∧ pathWithEndingSlash route = p) ∧
     (p ≠ "/" → (∀ q, p ≠ q +:+ "/") →
        path route = p ∧ pathWithEndingSlash route = p +:+ "/")) ∧
  use p h srv = add (mkOptions None p true h) srv ∧
  get p h srv = add (mkOptions (Some "GET") p false h) srv ∧
  post p h srv = add (mkOptions (Some "POST") p false h) srv ∧
  routes (use "/foo" h srv) = routes (use "/foo/" h srv) ∧
  (∀ req_method pathname,
     candidate (route_of (mkOptions None "/foo" true h)) req_method pathname =
     candidate (route_of (mkOptions None "/foo/" true h)) req_method pathname) ∧
  (∀ req_method pathname,
     candidate (route_of (mkOptions None "/foo" true h)) req_method pathname = true ↔
     pathname = "/foo" ∨ ∃ rest, pathname = "/foo/" +:+ rest).
Proof.
  split_and!; try reflexivity.
  - exists (route_of (mkOptions m p e h)). split; [reflexivity|].
    destruct (decide (p = "/")) as [->|Hroot].
    { rewrite route_of_root. by split_and!. }
    destruct (Js.ends_with_slash p) eqn:Hslash.
    + apply ends_with_slash_iff in Hslash as [q ->].
      assert (q ≠ "") as Hq by (intros ->; done).
      rewrite route_of_trailing_slash by done. simpl.
      split_and!; try done.
      * intros _ q' Hq'. by apply append_char_inj in Hq' as ->.
      * intros _ Hno. by destruct (Hno q).
    + rewrite route_of_plain by done. simpl.
      assert (∀ q, p ≠ q +:+ "/") as Hno.
      { intros q ->. assert (Js.ends_with_slash (q +:+ "/") = true) as Hyes
          by (apply ends_with_slash_iff; by exists q).
        congruence. }
      split_and!; try done.
      intros _ q ->. by destruct (Hno q).
  - intros req_method pathname. split.
    + intros Hc. apply candidate_iff in Hc as [_ [Hp|[_ Hp]]]; [by left | by right].
    + intros Hp. apply candidate_iff. split; [by left|].
      destruct Hp as [->|Hp]; [by left | by right].
Qed.

(** C2, as stated, fails in two places.  The root mount [use('/', h)]
    does not accept the request target [*] (of [OPTIONS *]), whose path
    name does not begin with a slash; and a route added with the empty
    string as its method accepts a [GET] request although its method is
    neither absent nor equal to the method of the request. *)
Lemma C2_counterexample :
  let root := route_of (mkOptions None "/" true Demo.decline) in
  let bare := route_of (mkOptions (Some "") "/x" false Demo.decline) in
  candidate root "OPTIONS" "*" = false ∧
  candidate bare "GET" "/x" = true ∧
  ¬ spec_candidate bare "GET" "/x".
Proof.
  split_and!; [reflexivity | reflexivity |].
  intros [[Hm|Hm] _]; discriminate.
Qed.

(** C2, amended: a route is a dispatch candidate exactly when its method
    is falsy ([undefined] or the empty string) or equal to the method of
    the request, and the path name is the exact path of the route or, for
    a prefix-matching route, starts with its prefix path.  In particular
    the root mount [use('/', h)] accepts every request whose path name
    begins with a slash. *)
Theorem C2_candidate_iff_method_and_path (route : Route)
  (req_method pathname : string) :
  (candidate route req_method pathname = true ↔
   (method route = None ∨ method route = Some "" ∨
    method route = Some req_method) ∧
   (pathname = path route ∨
    (extendable route = true ∧
     ∃ rest, pathname = pathWithEndingSlash route +:+ rest))) ∧
  (∀ (h : Middleware) (srv : Server) (rest : string),
     ∃ root, routes (use "/" h srv) = routes srv ++ [root] ∧
             candidate root req_method ("/" +:+ rest) = true).
Proof.
  split; [apply candidate_iff|].
  intros h srv rest. exists (route_of (mkOptions None "/" true h)).
  split; [reflexivity|].
  apply candidate_iff. rewrite route_of_root. simpl.
  split; [by left|]. right. split; [done|]. by exists rest.
Qed.

(** ** The dispatch loop *)

Section Dispatch.

Variables (req_method pathname : string) (query : gmap string string).

(** One step of [next], by cases: the route is passed over; its
    middleware returns the request and the loop goes on; or the loop is
    left. *)
Lemma next_cons (route : Route) (rest : list Route) (index : nat)
  (res : ServerResponse) :
  next (route :: rest) index req_method pathname query res =
  if skipped route req_method pathname then
    next rest (S index) req_method pathname query res
  else
    let c := call_to route index req_method pathname query res in
    if passes (call_outcome c) then
      (c :: (next rest (S index) req_method pathname query (call_after c)).1,
       (next rest (S index) req_method pathname query (call_after c)).2)
    else ([c], leave pathname (call_after c) (call_outcome c)).
Proof.
  simpl. destruct (skipped route req_method pathname); [reflexivity|].
  unfold call_to. simpl.
  destruct (middleware route _ res) as [res' invocation]. simpl.
  destruct invocation as [error|[[|result]|[[|result]|reason|]]]; reflexivity.
Qed.

(** [next] in terms of the cursor [index] into [routes]:
    [let route = routes[index++]; if (!route) { ... NotFoundError ... }]. *)
Lemma next_at_index (routes : list Route) (index : nat) (res : ServerResponse) :
  next (drop index routes) index req_method pathname query res =
  match routes !! index with
  | None => ([], ToError pathname res (NotFoundError "Page Not Found" pathname))
  | Some route =>
      next (route :: drop (S index) routes) index req_method pathname query res
  end.
Proof.
  destruct (routes !! index) as [route|] eqn:Hroute.
  - by rewrite (drop_S routes route index).
  - apply lookup_ge_None in Hroute. by rewrite drop_ge.
Qed.

(** Every call is made to a candidate route, at its index, with the
    request path computed for that route. *)
Lemma next_calls_candidates (rest : list Route) (index : nat)
  (res : ServerResponse) (c : Call) :
  c ∈ (next rest index req_method pathname query res).1 →
  ∃ j route,
    call_index c = (index + j)%nat ∧ rest !! j = Some route ∧
    candidate route req_method pathname = true ∧
    c = call_to route (index + j) req_method pathname query (call_before c).
Proof.
  revert index res. induction rest as [|route rest IH]; intros index res.
  - simpl. by intros ?%elem_of_nil.
  - rewrite next_cons.
    destruct (skipped route req_method pathname) eqn:Hskip.
    + intros (j & r & Hi & Hr & Hc & Hcall)%IH.
      exists (S j), r. rewrite Nat.add_succ_r. by split_and!.
    + cbv zeta.
      assert (∀ c', c' = call_to route index req_method pathname query res →
                    ∃ j r, call_index c' = (index + j)%nat ∧
                           (route :: rest) !! j = Some r ∧
                           candidate r req_method pathname = true ∧
                           c' = call_to r (index + j) req_method pathname query
                                        (call_before c')) as Hhead.
      { intros c' ->. exists 0%nat, route. rewrite Nat.add_0_r.
        split_and!; try done. unfold candidate. by rewrite Hskip. }
      destruct (passes _).
      * simpl. intros [->|Hin]%elem_of_cons; [by apply Hhead|].
        apply IH in Hin as (j & r & Hi & Hr & Hc & Hcall).
        exists (S j), r. rewrite Nat.add_succ_r. by split_and!.
      * simpl. intros ->%list_elem_of_singleton. by apply Hhead.
Qed.

(** Calls are made in the order of the routes. *)
Lemma next_calls_ordered (rest : list Route) (index : nat)
  (res : ServerResponse) (k1 k2 : nat) (c1 c2 : Call) :
  let trace := (next rest index req_method pathname query res).1 in
  trace !! k1 = Some c1 → trace !! k2 = Some c2 → (k1 < k2)%nat →
  (call_index c1 < call_index c2)%nat.
Proof.
  cbv zeta. revert index res k1 k2.
  induction rest as [|route rest IH]; intros index res k1 k2.
  - simpl. intros H. by rewrite lookup_nil in H.
  - rewrite next_cons.
    destruct (skipped route req_method pathname); [by apply IH|].
    cbv zeta. destruct (passes _); simpl.
    + destruct k1 as [|k1], k2 as [|k2]; simpl; try lia.
      * intros [= <-] Hc2 _.
        apply list_elem_of_lookup_2, next_calls_candidates in Hc2
          as (j & r & -> & _).
        simpl. lia.
      * intros Hc1 Hc2 Hk. eapply IH; [done..|lia].
    + destruct k1 as [|k1], k2 as [|k2]; simpl; try lia; try done.
Qed.

(** When the middleware of a route is called, every candidate route
    before it was called earlier and returned the request. *)
Lemma next_earlier_passed (rest : list Route) (index : nat)
  (res : ServerResponse) (i j : nat) (R1 R2 : Route) (k2 : nat) (c2 : Call) :
  let trace := (next rest index req_method pathname query res).1 in
  rest !! i = Some R1 → rest !! j = Some R2 → (i < j)%nat →
  candidate R1 req_method pathname = true →
  trace !! k2 = Some c2 → call_index c2 = (index + j)%nat →
  ∃ k1 c1, (k1 < k2)%nat ∧ trace !! k1 = Some c1 ∧
           call_index c1 = (index + i)%nat ∧
           passes (call_outcome c1) = true.
Proof.
  cbv zeta. revert index res i j k2.
  induction rest as [|route rest IH]; intros index res i j k2 Hi Hj Hij Hc1.
  - by rewrite lookup_nil in Hi.
  - rewrite next_cons.
    destruct j as [|j]; [lia|]. simpl in Hj.
    destruct (skipped route req_method pathname) eqn:Hskip.
    + destruct i as [|i]; simpl in Hi.
      { injection Hi as <-. unfold candidate in Hc1. by rewrite Hskip in Hc1. }
      intros Hk2 Hidx.
      destruct (IH (S index) res i j k2) as (k1 & c1 & ? & ? & Hidx1 & ?);
        [done | done | lia | done | done | lia |].
      exists k1, c1. split_and!; [done | done | lia | done].
    + cbv zeta. destruct (passes _) eqn:Hpass; simpl.
      * destruct k2 as [|k2]; simpl.
        { intros [= <-]. simpl. lia. }
        intros Hk2 Hidx. destruct i as [|i]; simpl in Hi.
        -- exists 0%nat, (call_to route index req_method pathname query res).
           split_and!; [lia | done | simpl; lia | done].
        -- destruct (IH (S index) _ i j k2 Hi Hj ltac:(lia) Hc1 Hk2 ltac:(lia))
             as (k1 & c1 & ? & ? & Hidx1 & ?).
           exists (S k1), c1. split_and!; [lia | done | lia | done].
      * destruct k2 as [|k2]; simpl; [|intros H; by rewrite lookup_nil in H].
        intros [= <-]. simpl. lia.
Qed.

(** A candidate route is called as soon as every candidate route before
    it was called and returned the request. *)
Lemma next_no_skipping (rest : list Route) (index : nat) (res : ServerResponse)
  (j : nat) (R2 : Route) :
  let trace := (next rest index req_method pathname query res).1 in
  rest !! j = Some R2 → candidate R2 req_method pathname = true →
  (∀ i R1, (i < j)%nat → rest !! i = Some R1 →
           candidate R1 req_method pathname = true →
           ∃ c1, c1 ∈ trace ∧ call_index c1 = (index + i)%nat ∧
                 passes (call_outcome c1) = true) →
  ∃ c2, c2 ∈ trace ∧ call_index c2 = (index + j)%nat.
Proof.
  cbv zeta. revert index res j.
  induction rest as [|route rest IH]; intros index res j Hj Hc2.
  - by rewrite lookup_nil in Hj.
  - rewrite next_cons.
    destruct (skipped route req_method pathname) eqn:Hskip.
    + destruct j as [|j]; simpl in Hj.
      { injection Hj as <-. unfold candidate in Hc2. by rewrite Hskip in Hc2. }
      intros Hbefore.
      destruct (IH (S index) res j Hj Hc2) as (c2 & ? & Hidx).
      { intros i R1 Hij Hi Hc1.
        destruct (Hbefore (S i) R1) as (c1 & ? & ? & ?); [lia | done | done |].
        exists c1. split_and!; [done | lia | done]. }
      exists c2. split; [done | lia].
    + assert (candidate route req_method pathname = true) as Hroute
        by (unfold candidate; by rewrite Hskip).
      cbv zeta. destruct (passes _) eqn:Hpass; simpl.
      * destruct j as [|j]; simpl in Hj.
        { intros _. eexists. split; [apply elem_of_cons; by left | simpl; lia]. }
        intros Hbefore.
        destruct (IH (S index) (call_after (call_to route index req_method
                    pathname query res)) j Hj Hc2) as (c2 & ? & Hidx).
        { intros i R1 Hij Hi Hc1.
          destruct (Hbefore (S i) R1) as (c1 & Hin & Hidx & ?); [lia | done | done |].
          apply elem_of_cons in Hin as [->|Hin]; [simpl in Hidx; lia|].
          exists c1. split_and!; [done | lia | done]. }
        exists c2. split; [apply elem_of_cons; by right | lia].
      * destruct j as [|j]; simpl in Hj.
        { intros _. eexists. split; [apply list_elem_of_singleton; done | simpl; lia]. }
        intros Hbefore.
        destruct (Hbefore 0%nat route) as (c1 & Hin & _ & Hp); [lia | done | done |].
        apply list_elem_of_singleton in Hin as ->. congruence.
Qed.

(** How the loop is left, from its last call: with the [NotFoundError]
    for the path name of the request when no call was made or the last
    call returned the request, and by the outcome of the last call
    otherwise. *)
Lemma next_exit (rest : list Route) (index : nat) (res : ServerResponse) :
  (next rest index req_method pathname query res).2 =
  match last (next rest index req_method pathname query res).1 with
  | None => ToError pathname res (NotFoundError "Page Not Found" pathname)
  | Some c =>
      if passes (call_outcome c)
      then ToError pathname (call_after c)
                   (NotFoundError "Page Not Found" pathname)
      else leave pathname (call_after c) (call_outcome c)
  end.
Proof.
  revert index res. induction rest as [|route rest IH]; intros index res.
  - reflexivity.
  - rewrite next_cons.
    destruct (skipped route req_method pathname); [apply IH|].
    cbv zeta. destruct (passes _) eqn:Hpass; cbn [fst snd].
    + rewrite IH, last_cons. destruct (last _); [done|]. by rewrite Hpass.
    + by rewrite last_singleton, Hpass.
Qed.

(** Without a candidate route no call is made. *)
Lemma next_no_candidate (rest : list Route) (index : nat) (res : ServerResponse) :
  (∀ route, route ∈ rest → candidate route req_method pathname = false) →
  (next rest index req_method pathname query res).1 = [].
Proof.
  intros Hnone.
  destruct (next rest index req_method pathname query res).1 as [|c trace] eqn:Ht;
    [done|].
  destruct (next_calls_candidates rest index res c) as (j & r & _ & Hr & Hc & _).
  { rewrite Ht. apply elem_of_cons. by left. }
  apply list_elem_of_lookup_2, Hnone in Hr. congruence.
Qed.

End Dispatch.

Lemma handleRequest_calls (pf : Platform) (fs : gmap string FsNode) (srv : Server)
  (req_method pathname : string) (query : gmap string string)
  (res : ServerResponse) :
  calls (_handleRequest pf fs srv req_method pathname query res) =
  (next (routes srv) 0 req_method pathname query res).1.
Proof. unfold _handleRequest. by destruct (next _ _ _ _ _ _). Qed.

Lemma handleRequest_exit (pf : Platform) (fs : gmap string FsNode) (srv : Server)
  (req_method pathname : string) (query : gmap string string)
  (res : ServerResponse) :
  exit (_handleRequest pf fs srv req_method pathname query res) =
  (next (routes srv) 0 req_method pathname query res).2.
Proof. unfold _handleRequest. by destruct (next _ _ _ _ _ _). Qed.

Lemma handleRequest_handled (pf : Platform) (fs : gmap string FsNode) (srv : Server)
  (req_method pathname : string) (query : gmap string string)
  (res : ServerResponse) :
  handled (_handleRequest pf fs srv req_method pathname query res) =
  match exit (_handleRequest pf fs srv req_method pathname query res) with
  | ToError p r error => _handleError pf fs srv p r error
  | ToResult p r result => _handleResult pf fs srv p r result
  | Waiting r => mkHandled r srv None
  end.
Proof. unfold _handleRequest. by destruct (next _ _ _ _ _ _). Qed.

(** C1: within one request the middlewares are called in registration
    order.  Every call is the call of a candidate route; calls follow the
    order of the routes; when the middleware of a candidate route R2 is
    called, every candidate route R1 registered before R2 was called
    earlier and its outcome was the request itself; and a candidate route
    is not passed over once every candidate route before it was called
    and returned the request. *)
Theorem C1_routes_tried_in_registration_order (pf : Platform)
  (fs : gmap string FsNode) (srv : Server) (req_method pathname : string)
  (query : gmap string string) (res : ServerResponse) :
  let trace := calls (_handleRequest pf fs srv req_method pathname query res) in
  (∀ c, c ∈ trace →
     ∃ route, routes srv !! call_index c = Some route ∧
              candidate route req_method pathname = true ∧
              c = call_to route (call_index c) req_method pathname query
                          (call_before c)) ∧
  (∀ k1 k2 c1 c2,
     trace !! k1 = Some c1 → trace !! k2 = Some c2 → (k1 < k2)%nat →
     (call_index c1 < call_index c2)%nat) ∧
  (∀ i j R1 R2 k2 c2,
     routes srv !! i = Some R1 → routes srv !! j = Some R2 → (i < j)%nat →
     candidate R1 req_method pathname = true →
     candidate R2 req_method pathname = true →
     trace !! k2 = Some c2 → call_index c2 = j →
     ∃ k1 c1, (k1 < k2)%nat ∧ trace !! k1 = Some c1 ∧ call_index c1 = i ∧
              passes (call_outcome c1) = true) ∧
  (∀ j R2,
     routes srv !! j = Some R2 → candidate R2 req_method pathname = true →
     (∀ i R1, (i < j)%nat → routes srv !! i = Some R1 →
              candidate R1 req_method pathname = true →
              ∃ c1, c1 ∈ trace ∧ call_index c1 = i ∧
                    passes (call_outcome c1) = true) →
     ∃ c2, c2 ∈ trace ∧ call_index c2 = j).
Proof.
  cbv zeta. rewrite handleRequest_calls. split_and!.
  - intros c Hc.
    apply next_calls_candidates in Hc as (j & route & Hidx & Hr & Hcand & Hcall).
    simpl in Hidx. exists route. rewrite Hidx. by split_and!.
  - intros k1 k2 c1 c2. apply next_calls_ordered.
  - intros i j R1 R2 k2 c2 Hi Hj Hij Hc1 _ Hk2 Hidx.
    by apply (next_earlier_passed req_method pathname query
                (routes srv) 0 res i j R1 R2 k2 c2).
  - intros j R2 Hj Hc2 Hbefore.
    by apply (next_no_skipping req_method pathname query (routes srv) 0 res j R2).
Qed.

(** ** The path seen by a middleware *)

Lemma routes_register (registrations : list RouteOptions) (srv : Server) :
  routes (register registrations srv) = routes srv ++ (route_of <$> registrations).
Proof.
  unfold register. revert srv.
  induction registrations as [|options registrations IH]; intros srv; simpl.
  - by rewrite app_nil_r.
  - rewrite IH. simpl. by rewrite <- app_assoc.
Qed.

(** For a candidate route built by [add], the path name of the request
    is the path of the route followed by the path given to the
    middleware. *)
Lemma request_path_strips_prefix (options : RouteOptions)
  (req_method pathname : string) :
  candidate (route_of options) req_method pathname = true →
  extendable (route_of options) = true → path (route_of options) ≠ "/" →
  pathname =
  path (route_of options) +:+ request_path (route_of options) pathname.
Proof.
  intros Hcand Hext Hroot. unfold request_path. rewrite Hext.
  apply str_eq_false in Hroot as Hroot'. rewrite Hroot'. simpl.
  destruct (route_of_prefix options) as [?|Hprefix]; [done|].
  apply candidate_iff in Hcand as [_ [->|[_ [rest ->]]]].
  - rewrite <- (append_empty_r (path (route_of options))) at 3.
    rewrite substr_from_append. by rewrite append_empty_r.
  - rewrite Hprefix, append_assoc. by rewrite substr_from_append.
Qed.

(** C10: on a server set up by registrations, a middleware mounted with
    a prefix other than [/] is given the path name of the request without
    the path of its route; a middleware registered for an exact path, or
    mounted at [/], is given the whole path name.  The result or the error
    of the request is handled under the whole path name, and the
    [NotFoundError] made when the routes are exhausted carries it. *)
Theorem C10_handler_sees_path_below_mount (pf : Platform)
  (fs : gmap string FsNode) (views errorViewsFolder : string)
  (registrations : list RouteOptions) (req_method pathname : string)
  (query : gmap string string) (res : ServerResponse) :
  let srv := register registrations (new_Server views errorViewsFolder) in
  let d := _handleRequest pf fs srv req_method pathname query res in
  (∀ c route,
     c ∈ calls d → routes srv !! call_index c = Some route →
     (extendable route = true → path route ≠ "/" →
      pathname = path route +:+ Req.path (call_request c)) ∧
     (extendable route = false ∨ path route = "/" →
      Req.path (call_request c) = pathname)) ∧
  match exit d with
  | ToError p r error =>
      p = pathname ∧ handled d = _handleError pf fs srv pathname r error
  | ToResult p r result =>
      p = pathname ∧ handled d = _handleResult pf fs srv pathname r result
  | Waiting _ => True
  end ∧
  (calls d = [] ∨
   (∃ c, last (calls d) = Some c ∧ passes (call_outcome c) = true) →
   ∃ r, exit d = ToError pathname r (NotFoundError "Page Not Found" pathname)).
Proof.
  cbv zeta. set (srv := register _ _).
  rewrite handleRequest_handled, handleRequest_calls, handleRequest_exit.
  split_and!.
  - intros c route Hc Hroute.
    apply next_calls_candidates in Hc as (j & r & Hidx & Hr & Hcand & Hcall).
    simpl in Hidx. rewrite Hidx in Hroute.
    assert (r = route) as -> by congruence. clear Hr.
    assert (∃ options, route = route_of options) as [options ->].
    { subst srv. rewrite routes_register in Hroute. simpl in Hroute.
      apply list_elem_of_lookup_2, list_elem_of_fmap in Hroute
        as (options & -> & _).
      by exists options. }
    rewrite Hcall. simpl. split.
    + intros Hext Hroot. by apply (request_path_strips_prefix _ req_method).
    + unfold request_path. intros [->| ->]; [done|]. by rewrite andb_false_r.
  - rewrite next_exit. destruct (last _) as [c|]; [|done].
    destruct (passes (call_outcome c)); [done|].
    by destruct (call_outcome c) as [?|[[|?]|[[|?]|?|]]].
  - rewrite next_exit. intros [-> | (c & -> & ->)]; eauto.
Qed.

(** ** Templates *)

Lemma span_expression_spec (s e r : string) :
  Template.span_expression s = (e, r) →
  s = e +:+ r ∧ all_expression_chars e = true.
Proof.
  revert e r. induction s as [|c s IH]; intros e r; simpl.
  - by intros [= <- <-].
  - destruct (Template.is_expression_char c) eqn:Hc.
    + destruct (Template.span_expression s) as [e' r'].
      intros [= <- <-]. destruct (IH e' r' eq_refl) as [-> He'].
      split; [by rewrite append_cons | simpl; by rewrite Hc].
    + by intros [= <- <-].
Qed.

Lemma span_expression_stop (e : string) (d : ascii) (rest : string) :
  all_expression_chars e = true → Template.is_expression_char d = false →
  Template.span_expression (e +:+ String d rest) = (e, String d rest).
Proof.
  intros He Hd. induction e as [|c e IH].
  - simpl. change ("" +:+ String d rest) with (String d rest).
    simpl. by rewrite Hd.
  - simpl in He. apply andb_true_iff in He as [Hc He].
    rewrite append_cons. simpl. by rewrite Hc, IH.
Qed.

Lemma token_text_append (e rest : string) :
  Template.token_text e +:+ rest = String "{" (e +:+ String "}" rest).
Proof.
  unfold Template.token_text.
  change ("{" +:+ e +:+ "}") with (String "{" (e +:+ "}")).
  rewrite append_cons. f_equal. by rewrite append_assoc.
Qed.

(** The regular expression matches at the head of a string exactly when
    the string starts with a token. *)
Lemma match_token_Some (s e rest : string) :
  Template.match_token s = Some (e, rest) ↔
  is_expression e = true ∧ s = Template.token_text e +:+ rest.
Proof.
  split.
  - destruct s as [|c s]; [done|]. simpl.
    destruct (Ascii.eqb c "{") eqn:Hc; [|done].
    apply Ascii.eqb_eq in Hc as ->.
    destruct (Template.span_expression s) as [e' r'] eqn:Hspan.
    apply span_expression_spec in Hspan as [-> He'].
    destruct e' as [|e0 e']; [done|]. destruct r' as [|d r']; [done|].
    destruct (Ascii.eqb d "}") eqn:Hd; [|done].
    apply Ascii.eqb_eq in Hd as ->. intros [= <- <-].
    split; [exact He' | by rewrite token_text_append].
  - intros [He ->]. rewrite token_text_append.
    unfold is_expression in He. apply andb_true_iff in He as [Hne He].
    simpl. rewrite span_expression_stop by done.
    destruct e as [|e0 e]; [done|]. reflexivity.
Qed.

Lemma match_token_shorter (s e rest : string) :
  Template.match_token s = Some (e, rest) →
  (String.length rest < String.length s)%nat.
Proof.
  intros [_ ->]%match_token_Some. rewrite token_text_append. simpl.
  rewrite length_append. simpl. lia.
Qed.

Section Replace.

Variable replacer : string → string → Exn string.

(** The number of steps given to [replace_fuel] does not matter once it
    exceeds the length of the string. *)
Lemma replace_fuel_enough (n m : nat) (s : string) :
  (String.length s < n)%nat → (String.length s < m)%nat →
  Template.replace_fuel n replacer s = Template.replace_fuel m replacer s.
Proof.
  revert m s. induction n as [|n IH]; intros [|m] s Hn Hm; [lia..|].
  simpl. destruct (Template.match_token s) as [[e rest]|] eqn:Hmatch.
  - apply match_token_shorter in Hmatch.
    by rewrite (IH m rest) by lia.
  - destruct s as [|c s]; [done|]. simpl in Hn, Hm.
    by rewrite (IH m s) by lia.
Qed.

Lemma replace_fuel_S (fuel : nat) (s : string) :
  Template.replace_fuel (S fuel) replacer s =
  match Template.match_token s with
  | Some (e, rest) =>
      r ← replacer (Template.token_text e) e;
      t ← Template.replace_fuel fuel replacer rest;
      Ok (r +:+ t)
  | None =>
      match s with
      | EmptyString => Ok ""
      | String c s' =>
          t ← Template.replace_fuel fuel replacer s'; Ok (String c t)
      end
  end.
Proof. reflexivity. Qed.

Lemma replace_empty : Template.replace replacer "" = Ok "".
Proof. reflexivity. Qed.

(** A token at the head is replaced and the search goes on behind it. *)
Lemma replace_token (e rest : string) :
  is_expression e = true →
  Template.replace replacer (Template.token_text e +:+ rest) =
  r ← replacer (Template.token_text e) e;
  t ← Template.replace replacer rest;
  Ok (r +:+ t).
Proof.
  intros He. unfold Template.replace.
  assert (Template.match_token (Template.token_text e +:+ rest) = Some (e, rest))
    as Hmatch by (by apply match_token_Some).
  rewrite replace_fuel_S, Hmatch.
  apply match_token_shorter in Hmatch.
  by rewrite (replace_fuel_enough _ (S (String.length rest)) rest) by lia.
Qed.

(** A character at which no token starts is copied. *)
Lemma replace_char (c : ascii) (s : string) :
  Template.match_token (String c s) = None →
  Template.replace replacer (String c s) =
  t ← Template.replace replacer s; Ok (String c t).
Proof.
  intros Hmatch. unfold Template.replace.
  by rewrite replace_fuel_S, Hmatch.
Qed.

(** Text without an opening brace is copied. *)
Lemma replace_literal (lit s : string) :
  brace_free lit = true →
  Template.replace replacer (lit +:+ s) =
  t ← Template.replace replacer s; Ok (lit +:+ t).
Proof.
  intros Hlit. induction lit as [|c lit IH].
  - change ("" +:+ s) with s. by destruct (Template.replace replacer s).
  - simpl in Hlit. apply andb_true_iff in Hlit as [Hc Hlit].
    rewrite append_cons, replace_char.
    + rewrite IH by done. by destruct (Template.replace replacer s).
    + simpl. apply negb_true_iff in Hc. by rewrite Hc.
Qed.

(** A replacer that raises nothing makes [replace] raise nothing. *)
Lemma replace_total (s : string) :
  (∀ text e, ∃ r, replacer text e = Ok r) →
  ∃ out, Template.replace replacer s = Ok out.
Proof.
  intros Htotal. unfold Template.replace.
  generalize (S (String.length s)) as fuel. intros fuel. revert s.
  induction fuel as [|fuel IH]; intros s; simpl; [by eexists|].
  destruct (Template.match_token s) as [[e rest]|].
  - destruct (Htotal (Template.token_text e) e) as [r ->].
    destruct (IH rest) as [t ->]. by eexists.
  - destruct s as [|c s]; [by eexists|].
    destruct (IH s) as [t ->]. by eexists.
Qed.

End Replace.

(** *** Substitution *)

Lemma substitute_unfold (template : string) (data : JSValue) :
  Template.substitute template data =
  Template.replace (Template.replacer (template_data data)) template.
Proof. reflexivity. Qed.

(** C7: the code leaves a token as it is when a segment of its path is
    [undefined], as the claim says, but not when a segment is [null]: the
    loop of the replacer tests [node === undefined] only, so with the data
    [{user: null}] the token [{user.name}] reads a property of [null] and
    the rendering ends with a [TypeError] instead of a text, wherever in
    the template the token stands.  With the data [{}] the same token is
    left as it is, and with [{user: {name: "Ann"}}] it is replaced. *)
Theorem C7_null_segment_raises :
  Template.substitute "{user.name}" (JObj [("user", JNull)]) = Throw TypeError ∧
  (∀ lit rest,
     brace_free lit = true →
     Template.substitute (lit +:+ "{user.name}" +:+ rest)
                         (JObj [("user", JNull)]) = Throw TypeError) ∧
  Template.substitute "Hello {user.name}!" (JObj []) = Ok "Hello {user.name}!" ∧
  Template.substitute "Hello {user.name}!" Demo.ann = Ok "Hello Ann!".
Proof.
  split_and!; try reflexivity.
  intros lit rest Hlit. rewrite substitute_unfold.
  rewrite replace_literal by done.
  by rewrite (replace_token _ "user.name" rest).
Qed.

(** ** Template cache *)

Section Render.

Variables (pf : Platform) (fs : gmap string FsNode) (srv : Server).
Variables (view : string) (data : JSValue).

Lemma render_cached_template (template : string) :
  _templateCache srv !! view_name view = Some (Some template) →
  _render pf fs srv view data =
  mkRendered (if Js.str_eq template "" then Ok None
              else Some <$> Template.substitute template data)
             (_templateCache srv) [].
Proof.
  unfold _render, view_name.
  destruct (Js.str_eq view "/") eqn:Hroot.
  - apply str_eq_true in Hroot as ->. simpl.
    change ("/" +:+ "index") with "/index". intros ->.
    by destruct (Js.str_eq template "").
  - intros ->. by destruct (Js.str_eq template "").
Qed.

Lemma render_cached_absent :
  _templateCache srv !! view_name view = Some None →
  _render pf fs srv view data = mkRendered (Ok None) (_templateCache srv) [].
Proof.
  unfold _render, view_name.
  destruct (Js.str_eq view "/") eqn:Hroot.
  - apply str_eq_true in Hroot as ->. simpl.
    change ("/" +:+ "index") with "/index". by intros ->.
  - by intros ->.
Qed.

Lemma render_loads (template : string) :
  _templateCache srv !! view_name view = None →
  fs !! view_file pf srv view = Some (File template) →
  _render pf fs srv view data =
  mkRendered (Some <$> Template.substitute template data)
             (<[view_name view := Some template]> (_templateCache srv))
             [Exists (view_file pf srv view); Read (view_file pf srv view)].
Proof.
  unfold _render, view_file, view_name, FS.existsSync, FS.readFileSync.
  destruct (Js.str_eq view "/") eqn:Hroot.
  - apply str_eq_true in Hroot as ->. simpl.
    change ("/" +:+ "index") with "/index". intros -> ->.
    by rewrite bool_decide_eq_true_2.
  - intros -> ->. by rewrite bool_decide_eq_true_2.
Qed.

Lemma render_misses :
  _templateCache srv !! view_name view = None →
  fs !! view_file pf srv view = None →
  _render pf fs srv view data =
  mkRendered (Ok None) (<[view_name view := None]> (_templateCache srv))
             [Exists (view_file pf srv view)].
Proof.
  unfold _render, view_file, view_name, FS.existsSync.
  destruct (Js.str_eq view "/") eqn:Hroot.
  - apply str_eq_true in Hroot as ->. simpl.
    change ("/" +:+ "index") with "/index". intros -> ->.
    rewrite bool_decide_eq_false_2; [done|]. by intros [? ?].
  - intros -> ->. rewrite bool_decide_eq_false_2; [done|]. by intros [? ?].
Qed.

(** The result of [_render] when the view has a template that is not
    empty, and when it has none. *)
Lemma render_present (template : string) :
  view_state pf fs srv view = Present template → template ≠ "" →
  html (_render pf fs srv view data) =
  Some <$> Template.substitute template data.
Proof.
  unfold view_state. intros Hstate Hne. apply str_eq_false in Hne.
  destruct (_templateCache srv !! view_name view) as [[t|]|] eqn:Hcache.
  - injection Hstate as ->. rewrite (render_cached_template template) by done.
    by rewrite Hne.
  - done.
  - destruct (fs !! view_file pf srv view) as [[t|]|] eqn:Hfile; try done.
    injection Hstate as ->. by rewrite (render_loads template).
Qed.

Lemma render_absent :
  view_state pf fs srv view = Absent →
  html (_render pf fs srv view data) = Ok None.
Proof.
  unfold view_state. intros Hstate.
  destruct (_templateCache srv !! view_name view) as [[t|]|] eqn:Hcache.
  - done.
  - by rewrite render_cached_absent.
  - destruct (fs !! view_file pf srv view) as [[t|]|] eqn:Hfile; try done.
    by rewrite render_misses.
Qed.

(** What [_render] returns for a view with a template, empty or not. *)
Lemma render_present_cases (template : string) :
  view_state pf fs srv view = Present template →
  html (_render pf fs srv view data) =
    Some <$> Template.substitute template data ∨
  (template = "" ∧ html (_render pf fs srv view data) = Ok None).
Proof.
  intros Hstate. destruct (decide (template = "")) as [->|Hne].
  - unfold view_state in Hstate.
    destruct (_templateCache srv !! view_name view) as [[t|]|] eqn:Hcache.
    + injection Hstate as ->. right. split; [done|].
      by rewrite (render_cached_template "").
    + done.
    + destruct (fs !! view_file pf srv view) as [[t|]|] eqn:Hfile; try done.
      injection Hstate as ->. left. by rewrite (render_loads "").
  - left. by apply render_present.
Qed.

End Render.

(** The template cache is sticky: a view whose template is not empty, or
    that has no template, is rendered a second time to the same result
    without any access to the file system, whatever the file system has
    become in between. *)
Theorem render_twice_from_cache (pf : Platform) (fs fs' : gmap string FsNode)
  (srv : Server) (view : string) (data : JSValue) :
  view_state pf fs srv view = Absent ∨
  (∃ template, view_state pf fs srv view = Present template ∧ template ≠ "") →
  let first := _render pf fs srv view data in
  let second := _render pf fs' (with_cache srv (cache_after first)) view data in
  html second = html first ∧ accesses second = [] ∧
  cache_after second = cache_after first.
Proof.
  unfold view_state. intros Hstate. cbv zeta.
  destruct (_templateCache srv !! view_name view) as [[t|]|] eqn:Hcache.
  - destruct Hstate as [?|(t' & [= <-] & Hne)]; [done|].
    rewrite (render_cached_template pf fs srv view data t) by done.
    rewrite (render_cached_template pf fs' _ view data t) by done.
    done.
  - rewrite (render_cached_absent pf fs srv view data) by done.
    by rewrite (render_cached_absent pf fs' _ view data) by done.
  - destruct (fs !! view_file pf srv view) as [[t|]|] eqn:Hfile.
    + destruct Hstate as [?|(t' & [= <-] & Hne)]; [done|].
      rewrite (render_loads pf fs srv view data t) by done.
      rewrite (render_cached_template pf fs' _ view data t)
        by (simpl; by rewrite lookup_insert_eq).
      apply str_eq_false in Hne. simpl. by rewrite Hne.
    + by destruct Hstate as [?|(t' & ? & _)].
    + rewrite (render_misses pf fs srv view data) by done.
      by rewrite (render_cached_absent pf fs' _ view data)
        by (simpl; by rewrite lookup_insert_eq).
Qed.

Lemma render_twice_from_cache_witness :
  let first := _render Demo.platform Demo.views_fs Demo.server "/widget" Demo.ann in
  let second := _render Demo.platform ∅ (with_cache Demo.server (cache_after first))
                        "/widget" Demo.ann in
  view_state Demo.platform Demo.views_fs Demo.server "/widget" =
    Present "Hello {user.name}!" ∧
  html second = Ok (Some "Hello Ann!") ∧ accesses second = [].
Proof.
  cbv zeta. split; [reflexivity|].
  destruct (render_twice_from_cache Demo.platform Demo.views_fs ∅ Demo.server
              "/widget" Demo.ann) as (Hhtml & Hacc & _).
  { right. exists "Hello {user.name}!". split; [reflexivity | discriminate]. }
  split; [rewrite Hhtml; reflexivity | exact Hacc].
Defined.

(** C8 fails on the code for a view whose file is empty: the first
    rendering returns the empty string, the second one, served from the
    cache, returns [undefined] as if the view did not exist. *)
Lemma C8_empty_view_rendered_twice :
  let first := _render Demo.platform Demo.empty_views_fs Demo.server
                       "/widget" Demo.ann in
  let second := _render Demo.platform Demo.empty_views_fs
                        (with_cache Demo.server (cache_after first))
                        "/widget" Demo.ann in
  html first = Ok (Some "") ∧ html second = Ok None ∧ accesses second = [].
Proof. cbv zeta. split_and!; reflexivity. Qed.

(** ** Error handler *)

Lemma error_page_fields (code : Z) (text : string) (res : ServerResponse) :
  statusCode (error_page code text res) = code ∧
  headers (error_page code text res) !! "Content-Type" = Some "text/html" ∧
  body (error_page code text res) = body res +:+ text ∧
  finished (error_page code text res) = true ∧
  _headerSent (error_page code text res) = true.
Proof.
  unfold error_page, end_, write, setHeader, setStatusCode. simpl.
  split_and!; try reflexivity. apply lookup_insert_eq.
Qed.

(** The error handler on a typed error, by the state of the error view. *)
Lemma handleError_typed (pf : Platform) (fs : gmap string FsNode) (srv : Server)
  (path : string) (res : ServerResponse) (error : Thrown) (code : Z)
  (message : string) :
  _headerSent res = false → typed_error error = Some (code, message) →
  _handleError pf fs srv path res error =
  let r := _render pf fs srv (error_view srv code) (error_data error) in
  let srv' := with_cache srv (cache_after r) in
  match html r with
  | Throw e => mkHandled res srv' (Some e)
  | Ok (Some h) =>
      mkHandled (error_page code (if Js.str_eq h "" then message else h) res)
                srv' None
  | Ok None => mkHandled (error_page code message res) srv' None
  end.
Proof.
  intros Hsent Htyped. unfold _handleError. rewrite Hsent.
  destruct error as [m c|m p|d]; simpl in Htyped; by simplify_eq.
Qed.

(** C5, as stated, fails for an error view that exists and is empty:
    its rendering is the empty string, and the body sent is the message of
    the error.  It also fails where the rendering of the error view raises
    an exception, as it does when the path of the view is a directory:
    the exception leaves the handler, and the response is neither given a
    status code or a content type nor ended. *)
Lemma C5_counterexample :
  let error := NotFoundError "Page Not Found" "/nope" in
  let h := _handleError Demo.platform Demo.empty_views_fs Demo.server "/nope"
                        fresh_response error in
  let h' := _handleError Demo.platform Demo.unreadable_views_fs Demo.server
                         "/nope" fresh_response error in
  (view_state Demo.platform Demo.empty_views_fs Demo.server
              (error_view Demo.server 404) = Present "" ∧
   html (_render Demo.platform Demo.empty_views_fs Demo.server
                 (error_view Demo.server 404) (error_data error)) = Ok (Some "") ∧
   body (response h) = "Page Not Found") ∧
  (view_state Demo.platform Demo.unreadable_views_fs Demo.server
              (error_view Demo.server 404) = Unreadable ∧
   uncaught h' = Some (Untyped "EISDIR") ∧
   response h' = fresh_response ∧
   finished (response h') = false ∧
   headers (response h') !! "Content-Type" = None).
Proof. cbv zeta. split_and!; reflexivity. Qed.

(** C5, amended: when the headers are not yet sent, a typed error is
    answered with its own status code (404 for a [NotFoundError]) and
    with the rendering of the error view [<errorViewsFolder>/<code>] when
    that view exists and its rendering, whatever the substitution gives,
    is not the empty string, with the message of the error otherwise; an
    untyped failure is answered with 500 and the text [Server Error],
    whatever its detail.  Whenever no exception leaves the handler, the
    status code is that of the error, the content type is [text/html] and
    the response is ended. *)
Theorem C5_error_response (pf : Platform) (fs : gmap string FsNode)
  (srv : Server) (path : string) (res : ServerResponse) (error : Thrown) :
  _headerSent res = false →
  let h := _handleError pf fs srv path res error in
  match typed_error error with
  | Some (code, message) =>
      (∀ p, error = NotFoundError message p → code = 404) ∧
      (∀ template rendered,
         view_state pf fs srv (error_view srv code) = Present template →
         Template.substitute template (error_data error) = Ok rendered →
         response h =
           error_page code (if Js.str_eq rendered "" then message else rendered)
                      res ∧
         uncaught h = None) ∧
      (view_state pf fs srv (error_view srv code) = Absent →
       response h = error_page code message res ∧ uncaught h = None) ∧
      (uncaught h = None → statusCode (response h) = code)
  | None =>
      response h = error_page 500 "Server Error" res ∧ uncaught h = None
  end ∧
  (uncaught h = None →
   headers (response h) !! "Content-Type" = Some "text/html" ∧
   finished (response h) = true).
Proof.
  intros Hsent. cbv zeta.
  destruct (typed_error error) as [[code message]|] eqn:Htyped.
  - rewrite (handleError_typed pf fs srv path res error code message) by done.
    cbv zeta.
    set (r := _render pf fs srv (error_view srv code) (error_data error)).
    split_and!.
    + intros p ->. simpl in Htyped. congruence.
    + intros template rendered Hstate Hrendered.
      destruct (render_present_cases pf fs srv (error_view srv code)
                  (error_data error) template Hstate) as [Hhtml|[-> Hhtml]];
        fold r in Hhtml; rewrite Hhtml.
      * rewrite Hrendered. by simpl.
      * simpl. injection Hrendered as <-. by simpl.
    + intros Hstate.
      pose proof (render_absent pf fs srv (error_view srv code)
                    (error_data error) Hstate) as Hhtml.
      fold r in Hhtml. by rewrite Hhtml.
    + destruct (html r) as [[h|]|e]; cbn [response uncaught]; try done;
        intros _; apply error_page_fields.
    + destruct (html r) as [[h|]|e]; cbn [response uncaught]; try done;
        intros _; split; apply error_page_fields.
  - destruct error as [m c|m p|d]; try done.
    unfold _handleError. rewrite Hsent. cbn [response uncaught].
    split; [by split | intros _; split; apply error_page_fields].
Qed.

Lemma C5_witness :
  _headerSent fresh_response = false ∧
  response (_handleError Demo.platform ∅ Demo.server "/x" fresh_response
                         (Untyped "boom")) =
  error_page 500 "Server Error" fresh_response.
Proof.
  split; [reflexivity|].
  destruct (C5_error_response Demo.platform ∅ Demo.server "/x" fresh_response
              (Untyped "boom") eq_refl) as [[Hresponse _] _].
  exact Hresponse.
Defined.

(** ** Result serializer *)

Lemma num_to_string_nonempty (n : Z) : Value.num_to_string n ≠ "".
Proof.
  unfold Value.num_to_string, NilZero.string_of_int.
  destruct (Z.to_int n) as [d|d]; [|done].
  by destruct d.
Qed.

(** [JSON.stringify] returns [undefined] for [undefined] only, and never
    an empty string. *)
Lemma stringify_None (v : JSValue) : Json.stringify v = None ↔ v = JUndefined.
Proof. destruct v as [| |[]| | | |]; by split. Qed.

Lemma stringify_nonempty (v : JSValue) (json : string) :
  Json.stringify v = Some json → json ≠ "".
Proof.
  destruct v as [| |[]|n|s|items|fields]; simpl; try (by intros [= <-]).
  intros [= <-]. apply num_to_string_nonempty.
Qed.

(** C6 fails on the code for a path whose template is an empty file:
    the first request is answered with the (empty) rendering as
    [text/html]; from the second request on the template is in the cache,
    [_render] returns [undefined] for it, and the value is sent as JSON
    although the template exists. *)
Lemma C6_empty_template_second_request :
  let first := _handleResult Demo.platform Demo.empty_views_fs Demo.server
                             "/widget" fresh_response (AValue Demo.ann) in
  let second := _handleResult Demo.platform Demo.empty_views_fs
                              (server_after first) "/widget" fresh_response
                              (AValue Demo.ann) in
  view_state Demo.platform Demo.empty_views_fs (server_after first) "/widget" =
    Present "" ∧
  headers (response first) !! "Content-Type" = Some "text/html" ∧
  headers (response second) !! "Content-Type" = Some "application/json".
Proof. cbv zeta. split_and!; reflexivity. Qed.

(** The result serializer, apart from empty templates: with the headers
    not yet sent, a [Response] object is
    left to write the response by itself and nothing else is done; for
    any other value, when a template that is not empty exists for the
    request path (the view [index] for the root path) its rendering is
    written as [text/html]; when no template exists the value is
    serialized as JSON and, the text being never empty, written as
    [application/json], except for [undefined], for which no body is
    written; the response is ended in every case that is not delegated.
    [{sn: "X1", time: 123}] without a template gives that JSON text. *)
Theorem result_serialized (pf : Platform) (fs : gmap string FsNode)
  (srv : Server) (path : string) (res : ServerResponse) (result : Terminal) :
  _headerSent res = false →
  let h := _handleResult pf fs srv path res result in
  match result with
  | AResponse r => h = mkHandled (applyTo r res) srv None
  | AValue v =>
      (∀ template rendered,
         view_state pf fs srv path = Present template → template ≠ "" →
         Template.substitute template v = Ok rendered →
         response h =
           end_ (write rendered (setHeader "Content-Type" "text/html" res)) ∧
         uncaught h = None) ∧
      (view_state pf fs srv path = Absent →
       uncaught h = None ∧
       match Json.stringify v with
       | Some json =>
           json ≠ "" ∧
           response h =
             end_ (write json (setHeader "Content-Type" "application/json" res))
       | None => v = JUndefined ∧ response h = end_ res
       end) ∧
      (uncaught h = None → finished (response h) = true)
  end ∧
  view_file pf srv "/" = Path_join pf (views srv) "/index.html" ∧
  (let sent := response (_handleResult Demo.platform ∅ Demo.server "/info"
                                       fresh_response (AValue Demo.info)) in
   body sent = Demo.info_json ∧
   headers sent !! "Content-Type" = Some "application/json" ∧
   finished sent = true).
Proof.
  intros Hsent. cbv zeta. split_and!; try reflexivity.
  unfold _handleResult. rewrite Hsent.
  destruct result as [r|v]; [reflexivity|]. cbv zeta.
  set (r := _render pf fs srv path v).
  split_and!.
  - intros template rendered Hstate Hne Hrendered.
    pose proof (render_present pf fs srv path v template Hstate Hne) as Hhtml.
    fold r in Hhtml. by rewrite Hhtml, Hrendered.
  - intros Hstate.
    pose proof (render_absent pf fs srv path v Hstate) as Hhtml.
    fold r in Hhtml. rewrite Hhtml.
    destruct (Json.stringify v) as [json|] eqn:Hjson.
    + pose proof (stringify_nonempty v json Hjson) as Hne.
      apply str_eq_false in Hne as Hne'. by rewrite Hne'.
    + apply stringify_None in Hjson. by split_and!.
  - by destruct (html r) as [[h|]|e].
Qed.

Lemma result_serialized_witness :
  _headerSent fresh_response = false ∧
  _handleResult Demo.platform ∅ Demo.server "/x" fresh_response
                (AResponse (mkResponseObject (write "done"))) =
  mkHandled (write "done" fresh_response) Demo.server None.
Proof.
  split; [reflexivity|].
  destruct (result_serialized Demo.platform ∅ Demo.server "/x" fresh_response
              (AResponse (mkResponseObject (write "done"))) eq_refl)
    as [Hdelegated _].
  exact Hdelegated.
Defined.

(** ** Exhausted routes *)

(** A typed error is answered with its status code whenever no exception
    leaves the handler, as is the case when its error view does not exist
    and when the substitution into its error view gives a text. *)
Lemma handleError_typed_sent (pf : Platform) (fs : gmap string FsNode)
  (srv : Server) (path : string) (res : ServerResponse) (error : Thrown)
  (code : Z) (message : string) :
  _headerSent res = false → typed_error error = Some (code, message) →
  let h := _handleError pf fs srv path res error in
  (uncaught h = None → ∃ text, response h = error_page code text res) ∧
  (view_state pf fs srv (error_view srv code) = Absent →
   response h = error_page code message res ∧ uncaught h = None) ∧
  (∀ template rendered,
     view_state pf fs srv (error_view srv code) = Present template →
     Template.substitute template (error_data error) = Ok rendered →
     uncaught h = None).
Proof.
  intros Hsent Htyped.
  rewrite (handleError_typed pf fs srv path res error code message) by done.
  cbv zeta. split_and!.
  - destruct (html _) as [[h|]|e]; cbn [response uncaught]; try done;
      intros _; by eexists.
  - intros Hstate.
    by rewrite (render_absent pf fs srv (error_view srv code)) by done.
  - intros template rendered Hstate Hrendered.
    destruct (render_present_cases pf fs srv (error_view srv code)
                (error_data error) template Hstate) as [Hhtml|[-> Hhtml]];
      rewrite Hhtml; [|done].
    by rewrite Hrendered.
Qed.

(** The routes of the server play no part in rendering, nor in the
    answer to an error. *)
Lemma render_routes_irrelevant (pf : Platform) (fs : gmap string FsNode)
  (srv : Server) (rs : list Route) (view : string) (data : JSValue) :
  _render pf fs
    (mkServer rs (views srv) (errorViewsFolder srv) (_templateCache srv))
    view data =
  _render pf fs srv view data.
Proof. by destruct srv. Qed.

Lemma handleError_routes_irrelevant (pf : Platform) (fs : gmap string FsNode)
  (srv : Server) (rs : list Route) (path : string) (res : ServerResponse)
  (error : Thrown) :
  let srv' := mkServer rs (views srv) (errorViewsFolder srv) (_templateCache srv) in
  response (_handleError pf fs srv path res error) =
  response (_handleError pf fs srv' path res error) ∧
  uncaught (_handleError pf fs srv path res error) =
  uncaught (_handleError pf fs srv' path res error).
Proof.
  cbv zeta. unfold _handleError.
  destruct (_headerSent res); [done|].
  destruct error as [m code|m p|d]; [| |done];
    rewrite render_routes_irrelevant; cbn [errorViewsFolder];
    by destruct (html _) as [[h|]|x].
Qed.

(** C4, as stated, fails when a middleware that declines the request has
    written to the response before: the loop reaches the error handler
    with the [NotFoundError], but the headers are sent and the response
    stays as the middleware left it, with status 200; it differs from the
    response given when no route matches.  It also fails where the
    rendering of the error view for 404 raises an exception, as it does
    when the path of that view is a directory: no route matches, the
    exception leaves the error handler and the response is not sent. *)
Lemma C4_counterexample :
  let d1 := _handleRequest Demo.platform ∅ Demo.talkative_server
                           "GET" "/x" ∅ fresh_response in
  let d0 := _handleRequest Demo.platform ∅ Demo.server
                           "GET" "/x" ∅ fresh_response in
  let d2 := _handleRequest Demo.platform Demo.unreadable_views_fs Demo.server
                           "GET" "/x" ∅ fresh_response in
  ((∃ c, last (calls d1) = Some c ∧ passes (call_outcome c) = true) ∧
   exit d1 = ToError "/x" (end_ (write "hi" fresh_response))
                     (NotFoundError "Page Not Found" "/x") ∧
   statusCode (response (handled d1)) = 200 ∧
   body (response (handled d1)) = "hi" ∧
   calls d0 = [] ∧
   statusCode (response (handled d0)) = 404 ∧
   body (response (handled d0)) = "Page Not Found") ∧
  (calls d2 = [] ∧
   exit d2 = ToError "/x" fresh_response (NotFoundError "Page Not Found" "/x") ∧
   uncaught (handled d2) = Some (Untyped "EISDIR") ∧
   response (handled d2) = fresh_response ∧
   statusCode (response (handled d2)) = 200 ∧
   finished (response (handled d2)) = false).
Proof.
  cbv zeta. split_and!; try reflexivity.
  eexists. split; reflexivity.
Qed.

(** C4, amended: when no registered route matches the request, or the
    last middleware called returned the request, the loop reaches the
    error handler with a [NotFoundError] that carries the path name of the
    request.  If the headers were not sent by a middleware before and no
    exception leaves the rendering of the error view for 404, the response
    is sent with status 404 and ended; no exception leaves it when the
    view does not exist, and when the substitution into the view gives a
    text.  The two cases give the same response when the middlewares
    called left the response as they found it. *)
Theorem C4_exhausted_routes_not_found (pf : Platform) (fs : gmap string FsNode)
  (srv : Server) (req_method pathname : string) (query : gmap string string)
  (res : ServerResponse) :
  let d := _handleRequest pf fs srv req_method pathname query res in
  let res' := response_left (calls d) res in
  let error := NotFoundError "Page Not Found" pathname in
  (∀ route, route ∈ routes srv → candidate route req_method pathname = false) ∨
  (∃ c, last (calls d) = Some c ∧ passes (call_outcome c) = true) →
  exit d = ToError pathname res' error ∧
  handled d = _handleError pf fs srv pathname res' error ∧
  (_headerSent res' = false →
   (uncaught (handled d) = None →
    statusCode (response (handled d)) = 404 ∧
    finished (response (handled d)) = true) ∧
   (view_state pf fs srv (error_view srv 404) = Absent →
    uncaught (handled d) = None ∧
    response (handled d) = error_page 404 "Page Not Found" res') ∧
   (∀ template rendered,
      view_state pf fs srv (error_view srv 404) = Present template →
      Template.substitute template (error_data error) = Ok rendered →
      uncaught (handled d) = None)) ∧
  (res' = res →
   let d0 := _handleRequest pf fs
               (mkServer [] (views srv) (errorViewsFolder srv) (_templateCache srv))
               req_method pathname query res in
   response (handled d) = response (handled d0) ∧
   uncaught (handled d) = uncaught (handled d0)).
Proof.
  cbv zeta. intros Hcase.
  assert (exit (_handleRequest pf fs srv req_method pathname query res) =
          ToError pathname
            (response_left
               (calls (_handleRequest pf fs srv req_method pathname query res)) res)
            (NotFoundError "Page Not Found" pathname)) as Hexit.
  { rewrite handleRequest_exit, handleRequest_calls in *.
    rewrite next_exit. unfold response_left.
    destruct Hcase as [Hnone|(c & -> & ->)]; [|done].
    by rewrite next_no_candidate. }
  assert (handled (_handleRequest pf fs srv req_method pathname query res) =
          _handleError pf fs srv pathname
            (response_left
               (calls (_handleRequest pf fs srv req_method pathname query res)) res)
            (NotFoundError "Page Not Found" pathname)) as Hhandled.
  { by rewrite handleRequest_handled, Hexit. }
  split_and!; [done | done | |].
  - intros Hsent. rewrite Hhandled.
    destruct (handleError_typed_sent pf fs srv pathname _
                (NotFoundError "Page Not Found" pathname) 404 "Page Not Found"
                Hsent eq_refl) as (Hcomplete & Habsent & Hpresent).
    split_and!.
    + intros Hnone. destruct (Hcomplete Hnone) as [text ->].
      split; apply error_page_fields.
    + intros Hstate. by destruct (Habsent Hstate).
    + exact Hpresent.
  - intros Hsame. rewrite Hhandled, Hsame.
    rewrite handleRequest_handled, handleRequest_exit. simpl.
    apply handleError_routes_irrelevant.
Qed.

Lemma C4_witness :
  let d := _handleRequest Demo.platform ∅ Demo.declining_server
                          "GET" "/x" ∅ fresh_response in
  (∃ c, last (calls d) = Some c ∧ passes (call_outcome c) = true) ∧
  statusCode (response (handled d)) = 404.
Proof.
  cbv zeta.
  assert (∃ c, last (calls (_handleRequest Demo.platform ∅ Demo.declining_server
                              "GET" "/x" ∅ fresh_response)) = Some c ∧
               passes (call_outcome c) = true) as Hlast.
  { eexists. split; reflexivity. }
  split; [exact Hlast|].
  destruct (C4_exhausted_routes_not_found Demo.platform ∅ Demo.declining_server
              "GET" "/x" ∅ fresh_response (or_intror Hlast))
    as (_ & _ & Hsent & _).
  destruct (Hsent eq_refl) as (Hcomplete & _ & _).
  apply Hcomplete. reflexivity.
Defined.

(** ** Static files *)

Lemma regular_file_size_file (fs : gmap string FsNode) (p : string) (g : bool)
  (content : string) :
  fs !! p = Some (File content) →
  Static.regular_file_size fs (Static.mkCandidate p g) =
  Some (String.length content).
Proof.
  intros Hp. unfold Static.regular_file_size, FS.statSync. simpl. by rewrite Hp.
Qed.

Lemma regular_file_size_none (fs : gmap string FsNode) (p : string) (g : bool) :
  fs !! p = None ∨ fs !! p = Some Directory →
  Static.regular_file_size fs (Static.mkCandidate p g) = None.
Proof.
  unfold Static.regular_file_size, FS.statSync. simpl. by intros [-> | ->].
Qed.

(** C9: the static middleware looks for the gzipped sibling [<path>.gz]
    first and for [<path>] second and serves the first of them that is a
    regular file; when neither is, it returns the request.  For the
    gzipped sibling it sets [Content-Encoding: gzip], otherwise it leaves
    that header alone; [Content-Length] is the size of the file served
    and [Content-Type] is taken from the MIME table at the extension of
    [<path>] itself, [application/octet-stream] when the table has no
    entry for it. *)
Theorem C9_static_prefers_gzipped_sibling (pf : Platform)
  (fs : gmap string FsNode) (root defaultPath : string) (req : Request)
  (res : ServerResponse) :
  let filePath := Static.file_path pf root defaultPath (Req.path req) in
  let gz := filePath +:+ ".gz" in
  let served := (Static.static pf fs root defaultPath req res).1 in
  let outcome := (Static.static pf fs root defaultPath req res).2 in
  let mime := match mimeMap pf !! Path_extname pf filePath with
              | Some known => known
              | None => "application/octet-stream"
              end in
  (∀ content,
     fs !! gz = Some (File content) →
     passes outcome = false ∧
     headers served !! "Content-Encoding" = Some "gzip" ∧
     headers served !! "Content-Length" =
       Some (Value.num_to_string (Z.of_nat (String.length content))) ∧
     headers served !! "Content-Type" = Some mime ∧
     body served = body res +:+ content) ∧
  (∀ content,
     fs !! gz = None ∨ fs !! gz = Some Directory →
     fs !! filePath = Some (File content) →
     passes outcome = false ∧
     headers served !! "Content-Encoding" = headers res !! "Content-Encoding" ∧
     headers served !! "Content-Length" =
       Some (Value.num_to_string (Z.of_nat (String.length content))) ∧
     headers served !! "Content-Type" = Some mime ∧
     body served = body res +:+ content) ∧
  (fs !! gz = None ∨ fs !! gz = Some Directory →
   fs !! filePath = None ∨ fs !! filePath = Some Directory →
   served = res ∧ outcome = Returned (APromise (Fulfilled TheRequest)) ∧
   passes outcome = true).
Proof.
  cbv zeta. unfold Static.static.
  set (filePath := Static.file_path pf root defaultPath (Req.path req)).
  cbv zeta. cbn [Static.findAndMerge].
  split_and!.
  - intros content Hgz.
    rewrite (regular_file_size_file fs _ true content Hgz).
    unfold Static.pipe. cbn [Static.assign Static.target_path Static.target_gzipped
                               Static.size Static.path Static.gzipped fst snd].
    rewrite Hgz. unfold end_, write, setHeader. cbn.
    split_and!; try done.
    + by rewrite !lookup_insert_ne, lookup_insert_eq by done.
    + by rewrite lookup_insert_ne, lookup_insert_eq by done.
    + by rewrite lookup_insert_eq.
  - intros content Hgz Hplain.
    rewrite (regular_file_size_none fs _ true Hgz).
    rewrite (regular_file_size_file fs _ false content Hplain).
    unfold Static.pipe. cbn [Static.assign Static.target_path Static.target_gzipped
                               Static.size Static.path Static.gzipped fst snd].
    rewrite Hplain. unfold end_, write, setHeader. cbn.
    split_and!; try done.
    + by rewrite !lookup_insert_ne by done.
    + by rewrite lookup_insert_ne, lookup_insert_eq by done.
    + by rewrite lookup_insert_eq.
  - intros Hgz Hplain.
    rewrite (regular_file_size_none fs _ true Hgz).
    by rewrite (regular_file_size_none fs _ false Hplain).
Qed.

(** The static middleware on a directory that holds [a.html], its
    gzipped sibling and a file of unknown type. *)
Example static_examples :
  let serve p := Static.static_default Demo.platform Demo.static_fs "static"
                   (Req.mk "GET" p ∅) fresh_response in
  headers (serve "/a.html").1 !! "Content-Encoding" = Some "gzip" ∧
  body (serve "/a.html").1 = "gz" ∧
  headers (serve "/a.html").1 !! "Content-Type" = Some "text/html" ∧
  headers (serve "/b.unknown").1 !! "Content-Type" =
    Some "application/octet-stream" ∧
  headers (serve "/b.unknown").1 !! "Content-Encoding" = None ∧
  passes (serve "/missing").2 = true ∧
  passes (serve "/dir").2 = true.
Proof. cbv zeta. split_and!; reflexivity. Qed.

(** ** The device information application *)

(** A [GET /] on the device information application: without a default
    document the static middleware declines and the device information is
    sent as JSON; with one, the document is served and the second route is
    not tried. *)
Example device_information_application :
  let without := _handleRequest Demo.platform Demo.static_fs
                   (Demo.device_application Demo.static_fs)
                   "GET" "/" ∅ fresh_response in
  let fs := <["static/index.html" := File "<h1>device</h1>"]> Demo.static_fs in
  let with_document := _handleRequest Demo.platform fs
                         (Demo.device_application fs)
                         "GET" "/" ∅ fresh_response in
  call_index <$> calls without = [0; 1]%nat ∧
  body (response (handled without)) = Demo.info_json ∧
  call_index <$> calls with_document = [0]%nat ∧
  body (response (handled with_document)) = "<h1>device</h1>" ∧
  headers (response (handled with_document)) !! "Content-Type" = Some "text/html".
Proof. cbv zeta. split_and!; reflexivity. Qed.

(** A middleware mounted below [/api] is given the rest of the path,
    while the result is rendered for the whole path name. *)
Example mounted_middleware_path :
  let d := _handleRequest Demo.platform ∅ Demo.api_server
             "GET" "/api/widget" ∅ fresh_response in
  (Req.path ∘ call_request) <$> calls d = ["/widget"] ∧
  exit d = ToResult "/api/widget" fresh_response (AValue (JStr "/widget")).
Proof. cbv zeta. split; reflexivity. Qed.

(** * Further properties *)

(** ** Which paths a route accepts *)

(** A prefix mount accepts its own path and the paths below it, and no
    path that merely starts with the same characters: [use('/foo', h)]
    accepts [/foo] and [/foo/bar] but not [/foobar]. *)
Theorem mount_accepts_whole_segments (p : string) (h : Middleware)
  (req_method pathname : string) :
  p ≠ "/" → Js.ends_with_slash p = false →
  let route := route_of (mkOptions None p true h) in
  (candidate route req_method pathname = true ↔
   pathname = p ∨ ∃ tail, pathname = p +:+ "/" +:+ tail) ∧
  (∀ rest, candidate route req_method (p +:+ rest) = true ↔
           rest = "" ∨ ∃ tail, rest = "/" +:+ tail).
Proof.
  intros Hroot Hslash. cbv zeta. rewrite route_of_plain by done.
  assert (∀ path, candidate (mkRoute None p true h (p +:+ "/")) req_method path
                  = true ↔
                  path = p ∨ ∃ tail, path = p +:+ "/" +:+ tail) as Hiff.
  { intros path. rewrite candidate_iff. simpl. split.
    - intros [_ [->|[_ [rest ->]]]]; [by left|].
      right. exists rest. by rewrite append_assoc.
    - intros Hp. split; [by left|].
      destruct Hp as [->|[tail ->]]; [by left|].
      right. split; [done|]. exists tail. by rewrite append_assoc. }
  split; [apply Hiff|].
  intros rest. rewrite Hiff. split.
  - intros [Heq|[tail Heq]].
    + left. rewrite <- (append_empty_r p) in Heq at 2.
      by apply (inj (String.app p)) in Heq.
    + right. exists tail. by apply (inj (String.app p)) in Heq.
  - intros [->|[tail ->]].
    + left. apply append_empty_r.
    + right. by exists tail.
Qed.

Lemma mount_accepts_whole_segments_witness :
  "/foo" ≠ "/" ∧ Js.ends_with_slash "/foo" = false ∧
  (candidate (route_of (mkOptions None "/foo" true Demo.decline)) "GET"
             ("/foo" +:+ "bar") = true ↔
   "bar" = "" ∨ ∃ tail, "bar" = "/" +:+ tail).
Proof.
  split; [discriminate|]. split; [reflexivity|].
  apply (mount_accepts_whole_segments "/foo" Demo.decline "GET" "/foo");
    [discriminate | reflexivity].
Defined.

Lemma append_char_longer (q : string) (c : ascii) : q +:+ String c "" ≠ q.
Proof.
  intros Heq. apply (f_equal String.length) in Heq.
  rewrite length_append in Heq. simpl in Heq. lia.
Qed.

(** A route for an exact path and a method accepts the requests with that
    method and exactly that path.  When the pattern is written with a
    slash at its end, the path accepted is the one without the slash:
    [get('/foo/', h)] accepts [GET /foo] and does not accept [GET /foo/]. *)
Theorem exact_route_drops_trailing_slash (q verb : string) (h : Middleware)
  (req_method pathname : string) :
  q ≠ "" → verb ≠ "" →
  let route := route_of (mkOptions (Some verb) (q +:+ "/") false h) in
  (candidate route req_method pathname = true ↔
   req_method = verb ∧ pathname = q) ∧
  candidate route verb (q +:+ "/") = false ∧
  routes (get (q +:+ "/") h (new_Server "views" "error")) =
    [route_of (mkOptions (Some "GET") (q +:+ "/") false h)] ∧
  routes (post (q +:+ "/") h (new_Server "views" "error")) =
    [route_of (mkOptions (Some "POST") (q +:+ "/") false h)].
Proof.
  intros Hq Hverb. cbv zeta.
  assert (∀ m path, candidate (mkRoute (Some verb) q false h (q +:+ "/")) m path
                    = true ↔ m = verb ∧ path = q) as Hiff.
  { intros m path. rewrite candidate_iff. simpl. split.
    - intros [[?|[?|?]] [->|[? _]]]; by simplify_eq.
    - intros [-> ->]. split; [by right; right | by left]. }
  split_and!; [| |reflexivity..]; rewrite route_of_trailing_slash by done.
  - apply Hiff.
  - apply not_true_is_false. intros [_ Hpath]%Hiff.
    by apply append_char_longer in Hpath.
Qed.

Lemma exact_route_drops_trailing_slash_witness :
  "/foo" ≠ "" ∧ "GET" ≠ "" ∧
  candidate (route_of (mkOptions (Some "GET") ("/foo" +:+ "/") false Demo.decline))
            "GET" ("/foo" +:+ "/") = false.
Proof.
  split; [discriminate|]. split; [discriminate|].
  apply (exact_route_drops_trailing_slash "/foo" "GET" Demo.decline "GET" "/foo");
    discriminate.
Defined.

(** ** Bounds on the calls of one request *)

Lemma next_calls_length (req_method pathname : string)
  (query : gmap string string) (rest : list Route) (index : nat)
  (res : ServerResponse) :
  (List.length (next rest index req_method pathname query res).1
   ≤ List.length rest)%nat.
Proof.
  revert index res. induction rest as [|route rest IH]; intros index res.
  - simpl. lia.
  - rewrite next_cons.
    destruct (skipped route req_method pathname).
    + specialize (IH (S index) res). simpl. lia.
    + cbv zeta. destruct (passes _); cbn [fst List.length].
      * specialize (IH (S index)
                      (call_after (call_to route index req_method pathname
                                           query res))). lia.
      * lia.
Qed.

(** Within one request no middleware is called twice: the calls are made
    to distinct routes of the table, so there are at most as many calls
    as routes. *)
Theorem each_route_called_at_most_once (pf : Platform) (fs : gmap string FsNode)
  (srv : Server) (req_method pathname : string) (query : gmap string string)
  (res : ServerResponse) :
  let trace := calls (_handleRequest pf fs srv req_method pathname query res) in
  NoDup (call_index <$> trace) ∧
  (∀ c, c ∈ trace → (call_index c < List.length (routes srv))%nat) ∧
  (List.length trace ≤ List.length (routes srv))%nat.
Proof.
  cbv zeta. rewrite handleRequest_calls. split_and!.
  - apply NoDup_alt. intros i j x Hi Hj.
    rewrite list_lookup_fmap in Hi, Hj.
    destruct (_ !! i) as [ci|] eqn:Hci; [|done].
    destruct (_ !! j) as [cj|] eqn:Hcj; [|done].
    simpl in Hi, Hj. injection Hi as <-. injection Hj as Heq.
    destruct (Nat.lt_trichotomy i j) as [Hlt|[->|Hlt]]; [|done|].
    + pose proof (next_calls_ordered req_method pathname query (routes srv) 0 res
                    i j ci cj Hci Hcj Hlt). lia.
    + pose proof (next_calls_ordered req_method pathname query (routes srv) 0 res
                    j i cj ci Hcj Hci Hlt). lia.
  - intros c Hc.
    apply next_calls_candidates in Hc as (j & route & Hidx & Hr & _).
    rewrite Hidx. simpl. by apply lookup_lt_Some in Hr.
  - apply next_calls_length.
Qed.

(** ** How a request ends *)

(** The response handed over when the loop is left is the one the calls
    left behind. *)
Lemma next_exit_response (req_method pathname : string)
  (query : gmap string string) (rest : list Route) (index : nat)
  (res : ServerResponse) :
  exit_response (next rest index req_method pathname query res).2 =
  response_left (next rest index req_method pathname query res).1 res.
Proof.
  rewrite next_exit. unfold response_left.
  destruct (last _) as [c|]; [|done].
  destruct (passes (call_outcome c)); [done|].
  by destruct (call_outcome c) as [?|[[|?]|[[|?]|?|]]].
Qed.

(** A request ends by the outcome of the last middleware called: with the
    [NotFoundError] for its path name when no middleware was called or
    the last one returned the request; with the error thrown, or the
    reason of the rejection, handed to the error handler; with the value
    returned or fulfilled handed to the serializer; and not at all while
    the promise stays pending. *)
Theorem request_ends_by_last_call (pf : Platform) (fs : gmap string FsNode)
  (srv : Server) (req_method pathname : string) (query : gmap string string)
  (res : ServerResponse) :
  let d := _handleRequest pf fs srv req_method pathname query res in
  let not_found := NotFoundError "Page Not Found" pathname in
  exit d =
  match last (calls d) with
  | None => ToError pathname res not_found
  | Some c =>
      match call_outcome c with
      | Threw error => ToError pathname (call_after c) error
      | Returned (APromise (Rejected reason)) =>
          ToError pathname (call_after c) reason
      | Returned (Plain (Final value)) => ToResult pathname (call_after c) value
      | Returned (APromise (Fulfilled (Final value))) =>
          ToResult pathname (call_after c) value
      | Returned (APromise Pending) => Waiting (call_after c)
      | Returned (Plain TheRequest) =>
          ToError pathname (call_after c) not_found
      | Returned (APromise (Fulfilled TheRequest)) =>
          ToError pathname (call_after c) not_found
      end
  end.
Proof.
  cbv zeta. rewrite handleRequest_exit, handleRequest_calls, next_exit.
  destruct (last _) as [c|]; [|done].
  by destruct (call_outcome c) as [?|[[|?]|[[|?]|?|]]].
Qed.

(** Once the headers are sent, by a middleware or before the request was
    dispatched, the framework adds nothing: whatever the last middleware
    returned or threw, the response stays as it was left, no view is
    rendered and the server is unchanged. *)
Theorem sent_response_is_kept (pf : Platform) (fs : gmap string FsNode)
  (srv : Server) (req_method pathname : string) (query : gmap string string)
  (res : ServerResponse) :
  let d := _handleRequest pf fs srv req_method pathname query res in
  _headerSent (response_left (calls d) res) = true →
  handled d = mkHandled (response_left (calls d) res) srv None.
Proof.
  cbv zeta. rewrite handleRequest_handled, handleRequest_exit, handleRequest_calls.
  rewrite <- next_exit_response. intros Hsent.
  destruct (next _ _ _ _ _ _).2 as [p r e|p r v|r]; simpl in *.
  - unfold _handleError. by rewrite Hsent.
  - unfold _handleResult. by rewrite Hsent.
  - done.
Qed.

Lemma sent_response_is_kept_witness :
  let d := _handleRequest Demo.platform ∅ Demo.talkative_server
                          "GET" "/x" ∅ fresh_response in
  _headerSent (response_left (calls d) fresh_response) = true ∧
  body (response (handled d)) = "hi".
Proof.
  cbv zeta. split; [reflexivity|].
  rewrite (sent_response_is_kept Demo.platform ∅ Demo.talkative_server
             "GET" "/x" ∅ fresh_response eq_refl).
  reflexivity.
Defined.

(** ** What a request changes in the server *)

Lemma render_cache_grows (pf : Platform) (fs : gmap string FsNode) (srv : Server)
  (view : string) (data : JSValue) :
  _templateCache srv ⊆ cache_after (_render pf fs srv view data).
Proof.
  unfold _render. cbv zeta.
  set (name := if Js.str_eq view "/" then view +:+ "index" else view).
  destruct (_templateCache srv !! name) as [[template|]|] eqn:Hcache.
  - by destruct (Js.str_eq template "").
  - done.
  - destruct (FS.existsSync fs _).
    + destruct (FS.readFileSync fs _); [by apply insert_subseteq | done].
    + by apply insert_subseteq.
Qed.

(** What a handler leaves of the server it was given. *)
Lemma handled_server (pf : Platform) (fs : gmap string FsNode) (srv : Server)
  (path : string) (res : ServerResponse) :
  (∀ result,
     ∃ cache, server_after (_handleResult pf fs srv path res result) =
                with_cache srv cache ∧ _templateCache srv ⊆ cache) ∧
  (∀ error,
     ∃ cache, server_after (_handleError pf fs srv path res error) =
                with_cache srv cache ∧ _templateCache srv ⊆ cache).
Proof.
  assert (srv = with_cache srv (_templateCache srv)) as Hsame by (by destruct srv).
  split.
  - intros result. unfold _handleResult.
    destruct (_headerSent res); [by exists (_templateCache srv)|].
    destruct result as [r|v]; [by exists (_templateCache srv)|]. cbv zeta.
    exists (cache_after (_render pf fs srv path v)).
    split; [|apply render_cache_grows].
    by destruct (html _) as [[h|]|e].
  - intros error. unfold _handleError.
    destruct (_headerSent res); [by exists (_templateCache srv)|].
    destruct error as [m code|m p|d]; [| |by exists (_templateCache srv)].
    + eexists. split; [|apply render_cache_grows].
      by destruct (html _) as [[h|]|e].
    + eexists. split; [|apply render_cache_grows].
      by destruct (html _) as [[h|]|e].
Qed.

(** A request leaves the routes, the view directory and the folder of the
    error views of the server as they are, and never changes or drops an
    entry of the template cache: what is cached for a view stays cached. *)
Theorem request_keeps_server (pf : Platform) (fs : gmap string FsNode)
  (srv : Server) (req_method pathname : string) (query : gmap string string)
  (res : ServerResponse) :
  let srv' := server_after
                (handled (_handleRequest pf fs srv req_method pathname query res)) in
  routes srv' = routes srv ∧ views srv' = views srv ∧
  errorViewsFolder srv' = errorViewsFolder srv ∧
  (∀ view cached,
     _templateCache srv !! view = Some cached →
     _templateCache srv' !! view = Some cached).
Proof.
  cbv zeta. rewrite handleRequest_handled.
  assert (∃ cache,
            server_after
              match exit (_handleRequest pf fs srv req_method pathname query res) with
              | ToError p r error => _handleError pf fs srv p r error
              | ToResult p r result => _handleResult pf fs srv p r result
              | Waiting r => mkHandled r srv None
              end = with_cache srv cache ∧ _templateCache srv ⊆ cache)
    as (cache & -> & Hgrows).
  { destruct (exit _) as [p r e|p r v|r].
    - apply handled_server.
    - apply handled_server.
    - exists (_templateCache srv). by destruct srv. }
  split_and!; try reflexivity.
  intros view cached Hcached. simpl. by eapply lookup_weaken.
Qed.

(** ** Routes and outcomes that make no difference *)

(** The handlers read the views and the cache of the server, not its
    routes. *)
Lemma handlers_routes_irrelevant (pf : Platform) (fs : gmap string FsNode)
  (srv : Server) (rs : list Route) (path : string) (res : ServerResponse) :
  (∀ result,
     let a := _handleResult pf fs srv path res result in
     let b := _handleResult pf fs (with_routes srv rs) path res result in
     response b = response a ∧ uncaught b = uncaught a ∧
     _templateCache (server_after b) = _templateCache (server_after a)) ∧
  (∀ error,
     let a := _handleError pf fs srv path res error in
     let b := _handleError pf fs (with_routes srv rs) path res error in
     response b = response a ∧ uncaught b = uncaught a ∧
     _templateCache (server_after b) = _templateCache (server_after a)).
Proof.
  unfold with_routes. split.
  - intros result. cbv zeta. unfold _handleResult.
    destruct (_headerSent res); [done|].
    destruct result as [r|v]; [done|].
    rewrite render_routes_irrelevant. cbv zeta.
    by destruct (html _) as [[h|]|e].
  - intros error. cbv zeta. unfold _handleError.
    destruct (_headerSent res); [done|].
    destruct error as [m code|m p|d]; [| |done];
      rewrite render_routes_irrelevant; cbn [errorViewsFolder];
      by destruct (html _) as [[h|]|e].
Qed.

Lemma outcome_with_routes (pf : Platform) (fs : gmap string FsNode)
  (srv : Server) (rs : list Route) (req_method pathname : string)
  (query : gmap string string) (res : ServerResponse) :
  (next rs 0 req_method pathname query res).2 =
  (next (routes srv) 0 req_method pathname query res).2 →
  outcome_of (_handleRequest pf fs (with_routes srv rs) req_method pathname
                             query res) =
  outcome_of (_handleRequest pf fs srv req_method pathname query res).
Proof.
  intros Hexit. unfold outcome_of.
  rewrite !handleRequest_handled, !handleRequest_exit.
  change (routes (with_routes srv rs)) with rs. rewrite Hexit.
  destruct (next (routes srv) 0 req_method pathname query res).2
    as [p r e|p r v|r].
  - destruct (handlers_routes_irrelevant pf fs srv rs p r) as [_ H].
    destruct (H e) as (-> & -> & ->). done.
  - destruct (handlers_routes_irrelevant pf fs srv rs p r) as [H _].
    destruct (H v) as (-> & -> & ->). done.
  - done.
Qed.




Lemma next_candidates_only (req_method pathname : string)
  (query : gmap string string) (rest : list Route) (i j : nat)
  (res : ServerResponse) :
  let matching := List.filter (fun r => candidate r req_method pathname) rest in
  (next matching i req_method pathname query res).2 =
  (next rest j req_method pathname query res).2 ∧
  call_view <$> (next matching i req_method pathname query res).1 =
  call_view <$> (next rest j req_method pathname query res).1.
Proof.
  cbv zeta. revert i j res. induction rest as [|route rest IH]; intros i j res.
  - done.
  - rewrite (next_cons _ _ _ route rest). simpl List.filter.
    destruct (skipped route req_method pathname) eqn:Hskip.
    + assert (candidate route req_method pathname = false) as ->
        by (unfold candidate; by rewrite Hskip).
      apply IH.
    + assert (candidate route req_method pathname = true) as ->
        by (unfold candidate; by rewrite Hskip).
      rewrite next_cons, Hskip. cbv zeta.
      set (c := call_to route j req_method pathname query res).
      set (c' := call_to route i req_method pathname query res).
      assert (call_after c' = call_after c) as Hafter by reflexivity.
      assert (call_outcome c' = call_outcome c) as Hout by reflexivity.
      assert (call_view c' = call_view c) as Hview by reflexivity.
      rewrite Hout, Hafter. destruct (passes (call_outcome c)); cbn [fst snd].
      * destruct (IH (S i) (S j) (call_after c)) as [-> Hviews].
        split; [done|]. rewrite !fmap_cons. by rewrite Hview, Hviews.
      * split; [done|]. by rewrite !fmap_cons, Hview.
Qed.

(** The routes that do not match a request have no effect on it: on the
    server that holds the matching routes only, the same middlewares are
    called with the same requests and responses, and the request ends
    the same way with the same response. *)
Theorem unmatched_routes_have_no_effect (pf : Platform)
  (fs : gmap string FsNode) (srv : Server) (req_method pathname : string)
  (query : gmap string string) (res : ServerResponse) :
  let matching :=
    List.filter (fun r => candidate r req_method pathname) (routes srv) in
  let d := _handleRequest pf fs srv req_method pathname query res in
  let d' := _handleRequest pf fs (with_routes srv matching)
                           req_method pathname query res in
  outcome_of d' = outcome_of d ∧
  call_view <$> calls d' = call_view <$> calls d.
Proof.
  cbv zeta.
  destruct (next_candidates_only req_method pathname query (routes srv) 0 0 res)
    as [Hexit Hviews].
  split.
  - by apply outcome_with_routes.
  - rewrite !handleRequest_calls. exact Hviews.
Qed.

(** ** Templates rendered as they are *)

(** A template without an opening brace is rendered to itself, whatever
    the data, also data that holds [null]; a view with such a template is
    rendered to its template. *)
Theorem template_without_tokens_verbatim (pf : Platform)
  (fs : gmap string FsNode) (srv : Server) (view template : string)
  (data : JSValue) :
  brace_free template = true →
  Template.substitute template data = Ok template ∧
  (view_state pf fs srv view = Present template → template ≠ "" →
   html (_render pf fs srv view data) = Ok (Some template)).
Proof.
  intros Hfree.
  assert (Template.substitute template data = Ok template) as Hsame.
  { rewrite substitute_unfold.
    rewrite <- (append_empty_r template) at 1.
    rewrite replace_literal, replace_empty by done.
    simpl. by rewrite append_empty_r. }
  split; [done|].
  intros Hstate Hne. rewrite (render_present pf fs srv view data template) by done.
  by rewrite Hsame.
Qed.

Lemma template_without_tokens_verbatim_witness :
  brace_free "<p>null}</p>" = true ∧
  Template.substitute "<p>null}</p>" (JObj [("user", JNull)]) = Ok "<p>null}</p>".
Proof.
  split; [reflexivity|].
  apply (template_without_tokens_verbatim Demo.platform ∅ Demo.server "/x").
  reflexivity.
Defined.

Lemma split_nonempty (sep : ascii) (s : string) : Template.split sep s ≠ [].
Proof.
  destruct s as [|c s]; simpl; [done|].
  destruct (Ascii.eqb c sep); [done|]. by destruct (Template.split sep s).
Qed.

(** A replacer that returns the text of every token leaves the string as
    it is. *)
Lemma replace_identity (replacer : string → string → Exn string) (s : string) :
  (∀ e, replacer (Template.token_text e) e = Ok (Template.token_text e)) →
  Template.replace replacer s = Ok s.
Proof.
  intros Hid. unfold Template.replace.
  assert (∀ fuel t, (String.length t < fuel)%nat →
                    Template.replace_fuel fuel replacer t = Ok t) as Hfuel.
  { induction fuel as [|fuel IH]; intros t Hlen; [lia|].
    rewrite replace_fuel_S.
    destruct (Template.match_token t) as [[e rest]|] eqn:Hmatch.
    - pose proof (match_token_shorter t e rest Hmatch) as Hshorter.
      apply match_token_Some in Hmatch as [_ ->].
      rewrite Hid. simpl. by rewrite IH by lia.
    - destruct t as [|c t]; [done|]. simpl in Hlen.
      by rewrite IH by lia. }
  apply Hfuel. lia.
Qed.

(** When the data is falsy ([undefined], as for a middleware that returns
    nothing, [null], [false], [0] or the empty string) every token is left
    as it is written: the template is rendered to itself. *)
Theorem falsy_data_leaves_template (template : string) (data : JSValue) :
  Value.truthy data = false →
  Template.substitute template data = Ok template.
Proof.
  intros Hfalsy. unfold Template.substitute. rewrite Hfalsy.
  apply replace_identity. intros e. unfold Template.replacer.
  destruct (Template.split "." e) as [|k ks] eqn:Hsplit.
  - by apply split_nonempty in Hsplit.
  - reflexivity.
Qed.

Lemma falsy_data_leaves_template_witness :
  Value.truthy JUndefined = false ∧
  Template.substitute "Hello {user.name}!" JUndefined = Ok "Hello {user.name}!".
Proof.
  split; [reflexivity|].
  apply (falsy_data_leaves_template "Hello {user.name}!" JUndefined).
  reflexivity.
Defined.

(** ** The default document and the mount point *)

(** The default document path is made to start with a slash, the empty
    path being left alone; doing so again changes nothing, so the
    assignment the middleware repeats at every request settles at the
    first, and the middleware set up with the path as given and the one
    set up with the normalized path answer alike. *)
Theorem default_path_normalized_once (pf : Platform) (fs : gmap string FsNode)
  (root defaultPath : string) (req : Request) (res : ServerResponse) :
  Static.normalize_default (Static.normalize_default defaultPath) =
    Static.normalize_default defaultPath ∧
  (defaultPath = "" ∧ Static.normalize_default defaultPath = "" ∨
   defaultPath ≠ "" ∧
   Js.starts_with "/" (Static.normalize_default defaultPath) = true) ∧
  Static.static pf fs root (Static.normalize_default defaultPath) req res =
    Static.static pf fs root defaultPath req res.
Proof.
  assert (Static.normalize_default (Static.normalize_default defaultPath) =
          Static.normalize_default defaultPath) as Hidem.
  { destruct defaultPath as [|c d]; [done|]. simpl.
    destruct (Ascii.eqb c Js.slash) eqn:Hc; simpl; [by rewrite Hc | done]. }
  split_and!; [done | |].
  - destruct defaultPath as [|c d]; [by left|]. right. split; [done|].
    simpl. destruct (Ascii.eqb c Js.slash) eqn:Hc; [|done].
    apply Ascii.eqb_eq in Hc as ->. done.
  - unfold Static.static, Static.file_path. by rewrite Hidem.
Qed.

(** Below a mount [p] other than [/], the request for [p/] is a request
    for the default document, while the request for [p] itself gives the
    middleware the empty path: the static middleware then looks up its
    root directory, not the default document, and declines when that is a
    directory without a gzipped sibling. *)
Theorem mount_point_is_not_the_default_document (pf : Platform)
  (fs : gmap string FsNode) (p root defaultPath : string) (h : Middleware)
  (req_method : string) (query : gmap string string) (res : ServerResponse) :
  p ≠ "/" → Js.ends_with_slash p = false →
  let route := route_of (mkOptions None p true h) in
  request_path route (p +:+ "/") = "/" ∧
  request_path route p = "" ∧
  Static.file_path pf root defaultPath (request_path route (p +:+ "/")) =
    Path_join pf root (Static.normalize_default defaultPath) ∧
  Static.file_path pf root defaultPath (request_path route p) =
    Path_join pf root "" ∧
  (fs !! Path_join pf root "" = Some Directory →
   fs !! (Path_join pf root "" +:+ ".gz") = None →
   Static.static pf fs root defaultPath
     (Req.mk req_method (request_path route p) query) res =
   (res, Returned (APromise (Fulfilled TheRequest)))).
Proof.
  intros Hroot Hslash. cbv zeta. rewrite route_of_plain by done.
  apply str_eq_false in Hroot as Hroot'.
  assert (request_path (mkRoute None p true h (p +:+ "/")) (p +:+ "/") = "/")
    as Hslashed.
  { unfold request_path. simpl. rewrite Hroot'. simpl.
    apply substr_from_append. }
  assert (request_path (mkRoute None p true h (p +:+ "/")) p = "") as Hbare.
  { unfold request_path. simpl. rewrite Hroot'. simpl.
    rewrite <- (append_empty_r p) at 1. apply substr_from_append. }
  rewrite Hslashed, Hbare. split_and!; try done.
  intros Hdir Hgz. unfold Static.static, Static.file_path. simpl.
  unfold Static.regular_file_size, FS.statSync. simpl.
  by rewrite Hgz, Hdir.
Qed.

Lemma mount_point_is_not_the_default_document_witness :
  "/build" ≠ "/" ∧ Js.ends_with_slash "/build" = false ∧
  request_path (route_of (mkOptions None "/build" true Demo.decline)) "/build" = "".
Proof.
  split; [discriminate|]. split; [reflexivity|].
  apply (mount_point_is_not_the_default_document Demo.platform ∅ "/build"
           "static" "/index.html" Demo.decline "GET" ∅ fresh_response);
    [discriminate | reflexivity].
Defined.

(** ** Static files below a mount *)

(** On a server that mounts the static middleware at [p], a request for
    [p/name] is answered with the file [name] of the root directory: the
    path of the mount is not part of the file path, the content type is
    that of the extension, and nothing is written after the file. *)
Theorem static_file_below_mount (pf : Platform) (fs : gmap string FsNode)
  (p root defaultPath name content v e req_method : string)
  (query : gmap string string) (res : ServerResponse) :
  p ≠ "/" → Js.ends_with_slash p = false → name ≠ "" →
  let file := Path_join pf root ("/" +:+ name) in
  fs !! (file +:+ ".gz") = None → fs !! file = Some (File content) →
  let srv := use p (Static.static pf fs root defaultPath) (new_Server v e) in
  let d := _handleRequest pf fs srv req_method (p +:+ "/" +:+ name) query res in
  let mime := match mimeMap pf !! Path_extname pf file with
              | Some known => known
              | None => "application/octet-stream"
              end in
  (Req.path ∘ call_request) <$> calls d = ["/" +:+ name] ∧
  response (handled d) =
    end_ (write content
            (setHeader "Content-Type" mime
               (setHeader "Content-Length"
                  (Value.num_to_string (Z.of_nat (String.length content))) res))) ∧
  uncaught (handled d) = None.
Proof.
  intros Hroot Hslash Hname. cbv zeta. intros Hgz Hfile.
  apply str_eq_false in Hroot as Hroot'.
  assert (Js.str_eq ("/" +:+ name) "/" = false) as Hnotroot.
  { apply str_eq_false. intros Heq. apply Hname.
    change "/" with ("/" +:+ "") in Heq at 2.
    by apply (inj (String.app "/")) in Heq. }
  unfold _handleRequest, use, add. simpl routes.
  rewrite route_of_plain by done.
  rewrite next_cons.
  assert (skipped (mkRoute None p true (Static.static pf fs root defaultPath)
                           (p +:+ "/")) req_method (p +:+ "/" +:+ name) = false)
    as ->.
  { apply negb_true_iff. change (negb (skipped ?r ?m ?q)) with (candidate r m q).
    apply candidate_iff. simpl. split; [by left|]. right. split; [done|].
    exists name. by rewrite append_assoc. }
  cbv zeta. unfold call_to.
  assert (request_path (mkRoute None p true (Static.static pf fs root defaultPath)
                                (p +:+ "/")) (p +:+ "/" +:+ name) = "/" +:+ name)
    as ->.
  { unfold request_path. simpl. rewrite Hroot'. simpl. apply substr_from_append. }
  cbn [middleware].
  assert (Static.static pf fs root defaultPath
            (Req.mk req_method ("/" +:+ name) query) res =
          (end_ (write content
                   (setHeader "Content-Type"
                      match mimeMap pf !! Path_extname pf
                                             (Path_join pf root ("/" +:+ name)) with
                      | Some known => known
                      | None => "application/octet-stream"
                      end
                      (setHeader "Content-Length"
                         (Value.num_to_string (Z.of_nat (String.length content)))
                         res))),
           Returned (APromise (Fulfilled (Final (AValue JUndefined)))))) as ->.
  { unfold Static.static, Static.file_path. cbn [Req.path]. rewrite Hnotroot.
    cbv zeta. cbn [Static.findAndMerge].
    rewrite (regular_file_size_none fs _ true) by (by left).
    rewrite (regular_file_size_file fs _ false content Hfile).
    unfold Static.pipe.
    cbn [Static.assign Static.target_path Static.target_gzipped Static.size
         Static.path Static.gzipped].
    by rewrite Hfile. }
  done.
Qed.

Lemma static_file_below_mount_witness :
  let d := _handleRequest Demo.platform Demo.static_fs
             (use "/build" (Static.static Demo.platform Demo.static_fs "static"
                                          "/index.html")
                  (new_Server "views" "error"))
             "GET" ("/build" +:+ "/" +:+ "b.unknown") ∅ fresh_response in
  Demo.static_fs !! "static/b.unknown" = Some (File "data") ∧
  body (response (handled d)) = "data".
Proof.
  cbv zeta. split; [reflexivity|].
  destruct (static_file_below_mount Demo.platform Demo.static_fs "/build" "static"
              "/index.html" "b.unknown" "data" "views" "error" "GET" ∅
              fresh_response) as (_ & -> & _);
    [discriminate | reflexivity | discriminate | reflexivity | reflexivity |].
  reflexivity.
Defined.

(** ** The earlier static middleware *)

(** A [setHeader] that does not throw sets the header and leaves the
    headers unsent. *)
Lemma try_setHeader_unsent
  (throws : string → string → ServerResponse → option Thrown)
  (name value : string) (res : ServerResponse) :
  (∀ n v r, _headerSent r = false → throws n v r = None) →
  _headerSent res = false →
  Earlier.try_setHeader throws name value res = Ok (setHeader name value res) ∧
  _headerSent (setHeader name value res) = false.
Proof.
  intros Hthrows Hsent. unfold Earlier.try_setHeader.
  by rewrite (Hthrows name value res Hsent).
Qed.

(** Where there is no gzipped sibling to serve, the headers of the
    response are not yet sent and [setHeader] throws nothing on such a
    response, the static middleware answers as the one of the earlier
    version, which knew no gzipped files and set the content length inside
    its [try]. *)
Theorem static_agrees_with_earlier_version
  (throws : string → string → ServerResponse → option Thrown) (pf : Platform)
  (fs : gmap string FsNode) (root defaultPath : string) (req : Request)
  (res : ServerResponse) :
  let gz := Static.file_path pf root defaultPath (Req.path req) +:+ ".gz" in
  (∀ name value r, _headerSent r = false → throws name value r = None) →
  _headerSent res = false →
  fs !! gz = None ∨ fs !! gz = Some Directory →
  Static.static pf fs root defaultPath req res =
  Earlier.static throws pf fs root defaultPath req res.
Proof.
  cbv zeta. intros Hthrows Hsent Hgz. unfold Static.static, Earlier.static.
  set (filePath := Static.file_path pf root defaultPath (Req.path req)) in *.
  cbv zeta. cbn [Static.findAndMerge].
  rewrite (regular_file_size_none fs _ true Hgz).
  unfold Static.regular_file_size, FS.statSync. cbn [Static.path].
  destruct (fs !! filePath) as [[content|]|] eqn:Hfile; try done.
  cbn [FS.isFile FS.size negb].
  destruct (try_setHeader_unsent throws "Content-Length"
              (Value.num_to_string (Z.of_nat (String.length content))) res
              Hthrows Hsent)
    as [-> Hsent1].
  by destruct (try_setHeader_unsent throws "Content-Type"
                 (match mimeMap pf !! Path_extname pf filePath with
                  | Some mime => mime
                  | None => "application/octet-stream"
                  end) _ Hthrows Hsent1) as [-> _].
Qed.

Lemma static_agrees_with_earlier_version_witness :
  let req := Req.mk "GET" "/b.unknown" ∅ in
  (∀ name value r,
     _headerSent r = false → Earlier.throws_when_sent name value r = None) ∧
  _headerSent fresh_response = false ∧
  Demo.static_fs !! "static/b.unknown.gz" = None ∧
  Static.static Demo.platform Demo.static_fs "static" "/index.html" req
                fresh_response =
  Earlier.static Earlier.throws_when_sent Demo.platform Demo.static_fs
                 "static" "/index.html" req fresh_response.
Proof.
  cbv zeta.
  assert (∀ name value r,
            _headerSent r = false → Earlier.throws_when_sent name value r = None)
    as Hthrows.
  { intros name value r Hsent. unfold Earlier.throws_when_sent. by rewrite Hsent. }
  split; [exact Hthrows|]. split; [reflexivity|]. split; [reflexivity|].
  apply (static_agrees_with_earlier_version Earlier.throws_when_sent
           Demo.platform Demo.static_fs
           "static" "/index.html" (Req.mk "GET" "/b.unknown" ∅) fresh_response).
  - exact Hthrows.
  - reflexivity.
  - left. reflexivity.
Defined.

(** ** The helpers [findAndMerge] and [assign] *)

(** [findAndMerge] returns the first item the filter accepts, merged with
    what the filter found for it, and nothing exactly when the filter
    accepts no item; the items behind the first one accepted play no
    part. *)
Theorem findAndMerge_first_accepted {T U V : Type} (merge : T → U → V)
  (items : list T) (filter : T → option U) :
  (Static.findAndMerge merge items filter = None ↔
   Forall (λ item, filter item = None) items) ∧
  (∀ found,
     Static.findAndMerge merge items filter = Some found ↔
     ∃ before item after ret,
       items = before ++ item :: after ∧
       Forall (λ x, filter x = None) before ∧
       filter item = Some ret ∧ found = merge item ret).
Proof.
  induction items as [|item items [IHnone IHsome]]; simpl.
  - split; [by split|]. intros found. split; [done|].
    intros (before & x & after & ret & Heq & _). by destruct before.
  - destruct (filter item) as [ret|] eqn:Hitem.
    + split.
      * split; [done|]. intros Hall. apply Forall_cons in Hall as [Hno _].
        congruence.
      * intros found. split.
        -- intros [= <-]. exists [], item, items, ret. by split_and!.
        -- intros (before & x & after & ret' & Heq & Hbefore & Hx & ->).
           destruct before as [|b before]; simpl in Heq;
             injection Heq as <- Heq.
           ++ rewrite Hitem in Hx. by injection Hx as <-.
           ++ apply Forall_cons in Hbefore as [Hb _]. congruence.
    + split.
      * rewrite IHnone. split.
        -- intros Hall. by apply Forall_cons.
        -- by intros [_ Hall]%Forall_cons.
      * intros found. rewrite IHsome. split.
        -- intros (before & x & after & ret & -> & Hbefore & Hx & ->).
           exists (item :: before), x, after, ret.
           split_and!; try done. by apply Forall_cons.
        -- intros (before & x & after & ret & Heq & Hbefore & Hx & ->).
           destruct before as [|b before]; simpl in Heq;
             injection Heq as <- Heq.
           ++ congruence.
           ++ apply Forall_cons in Hbefore as [_ Hbefore].
              by exists before, x, after, ret.
Qed.

Lemma own_property_set (fields : list (string * JSValue)) (k key : string)
  (v : JSValue) :
  Value.own_property (Obj.set fields k v) key =
  if Js.str_eq k key then Some v else Value.own_property fields key.
Proof.
  unfold Obj.set. induction fields as [|[k0 v0] fields IH]; simpl.
  - done.
  - rewrite IH. destruct (Js.str_eq k key); [done|].
    by destruct (Value.own_property fields key).
Qed.

Lemma has_own_property (inherited : string → bool)
  (fields : list (string * JSValue)) (key : string) :
  Obj.has inherited fields key =
  bool_decide (is_Some (Value.own_property fields key)) || inherited key.
Proof.
  unfold Obj.has. f_equal.
  induction fields as [|[k v] fields IH]; [done|].
  simpl. rewrite IH.
  destruct (Value.own_property fields key) as [later|];
    destruct (Js.str_eq k key); done.
Qed.

Lemma keys_own_property (fields : list (string * JSValue)) (key : string) :
  key ∈ Obj.keys fields ↔ is_Some (Value.own_property fields key).
Proof.
  rewrite list_elem_of_In.
  induction fields as [|[k v] fields IH]; simpl.
  - split; [done | by intros [? ?]].
  - rewrite filter_In, IH, negb_true_iff, str_eq_false.
    destruct (Value.own_property fields key) as [later|].
    + split; [eauto|]. intros _.
      destruct (decide (k = key)) as [->|Hne]; [by left|].
      right. split; [eauto | by intros ->].
    + destruct (Js.str_eq k key) eqn:Hk.
      * apply str_eq_true in Hk as ->. split; [eauto | by left].
      * apply str_eq_false in Hk. split.
        -- intros [?|[[? ?] _]]; done.
        -- by intros [? ?].
Qed.

Lemma assign_fold (inherited : string → bool)
  (source : list (string * JSValue)) (ks : list string)
  (target : list (string * JSValue)) (key : string) :
  Value.own_property
    (fold_left
       (fun t k =>
          if Obj.has inherited t k then t
          else Obj.set t k (default JUndefined (Value.own_property source k)))
       ks target) key =
  match Value.own_property target key with
  | Some v => Some v
  | None =>
      if bool_decide (key ∈ ks) && negb (inherited key)
      then Some (default JUndefined (Value.own_property source key))
      else None
  end.
Proof.
  revert target. induction ks as [|k ks IH]; intros target; simpl.
  - by destruct (Value.own_property target key).
  - rewrite IH. rewrite has_own_property.
    destruct (decide (k = key)) as [->|Hne].
    + rewrite (bool_decide_eq_true_2 (key ∈ key :: ks))
        by (apply elem_of_cons; by left).
      destruct (Value.own_property target key) as [v|] eqn:Htarget.
      * rewrite bool_decide_eq_true_2 by eauto. cbn [orb]. by rewrite Htarget.
      * rewrite bool_decide_eq_false_2 by (by intros [? ?]). cbn [orb andb].
        destruct (inherited key); cbn [negb].
        -- rewrite Htarget. by rewrite andb_false_r.
        -- rewrite own_property_set.
           assert (Js.str_eq key key = true) as -> by (by apply str_eq_true).
           done.
    + assert (bool_decide (key ∈ k :: ks) = bool_decide (key ∈ ks)) as ->.
      { apply bool_decide_ext. rewrite elem_of_cons.
        split; [by intros [?|?] | by right]. }
      destruct (bool_decide (is_Some (Value.own_property target k)) || inherited k);
        [done|].
      rewrite own_property_set.
      apply str_eq_false in Hne. by rewrite Hne.
Qed.

(** [assign] keeps every property of the target with its value and adds
    the properties of the source whose key the target neither owns nor
    inherits, [in] finding the inherited members as well: an own property
    of the result is the target's when the target owns it, none when the
    target inherits the key, and the source's otherwise.  For a candidate
    of the static middleware and a size it gives the target with the path,
    the flag and the size, as long as the candidate inherits no member
    [size]; if it did, the size would be left out. *)
Theorem assign_fills_what_is_missing (inherited : string → bool)
  (target source : list (string * JSValue)) (key : string)
  (c : Static.Candidate) (n : nat) :
  Value.own_property (Obj.assign inherited target source) key =
    match Value.own_property target key with
    | Some v => Some v
    | None => if inherited key then None else Value.own_property source key
    end ∧
  (inherited "size" = false →
   Obj.assign inherited (candidate_object c) [("size", JNum (Z.of_nat n))] =
   target_object (Static.assign c n)) ∧
  (inherited "size" = true →
   Obj.assign inherited (candidate_object c) [("size", JNum (Z.of_nat n))] =
   candidate_object c).
Proof.
  split_and!.
  - unfold Obj.assign. rewrite assign_fold.
    destruct (Value.own_property target key) as [v|]; [done|].
    destruct (inherited key); [by rewrite andb_false_r|].
    rewrite andb_true_r.
    destruct (Value.own_property source key) as [v|] eqn:Hsource.
    + rewrite bool_decide_eq_true_2; [done|].
      apply keys_own_property. rewrite Hsource. eauto.
    + rewrite bool_decide_eq_false_2; [done|].
      intros [? Hsome]%keys_own_property. congruence.
  - intros Hsize. unfold Obj.assign, Obj.has. simpl. by rewrite Hsize.
  - intros Hsize. unfold Obj.assign, Obj.has. simpl. by rewrite Hsize.
Qed.

(** ** Errors of a middleware *)

(** An error thrown by the last middleware called, or the reason of the
    rejection of its promise, is answered on the response as the
    middleware left it, when its headers are not yet sent: a typed error
    without an error view with its own status code and message, any other
    failure with 500 and the text [Server Error]. *)
Theorem middleware_error_is_answered (pf : Platform) (fs : gmap string FsNode)
  (srv : Server) (req_method pathname : string) (query : gmap string string)
  (res : ServerResponse) (c : Call) (error : Thrown) :
  let d := _handleRequest pf fs srv req_method pathname query res in
  last (calls d) = Some c →
  call_outcome c = Threw error ∨
  call_outcome c = Returned (APromise (Rejected error)) →
  _headerSent (call_after c) = false →
  exit d = ToError pathname (call_after c) error ∧
  match typed_error error with
  | Some (code, message) =>
      view_state pf fs srv (error_view srv code) = Absent →
      response (handled d) = error_page code message (call_after c) ∧
      uncaught (handled d) = None
  | None =>
      response (handled d) = error_page 500 "Server Error" (call_after c) ∧
      uncaught (handled d) = None
  end.
Proof.
  cbv zeta. intros Hlast Houtcome Hsent.
  assert (exit (_handleRequest pf fs srv req_method pathname query res) =
          ToError pathname (call_after c) error) as Hexit.
  { rewrite handleRequest_exit, next_exit.
    rewrite handleRequest_calls in Hlast. rewrite Hlast.
    by destruct Houtcome as [-> | ->]. }
  split; [done|].
  rewrite handleRequest_handled, Hexit.
  destruct (typed_error error) as [[code message]|] eqn:Htyped.
  - intros Habsent.
    rewrite (handleError_typed pf fs srv pathname (call_after c) error code message)
      by done.
    cbv zeta. by rewrite (render_absent pf fs srv (error_view srv code)).
  - destruct error as [m code|m p|detail]; try done.
    unfold _handleError. by rewrite Hsent.
Qed.

Lemma middleware_error_is_answered_witness :
  let failing : Middleware :=
    fun _ res => (res, Threw (ExpectedError "Forbidden" 403)) in
  let d := _handleRequest Demo.platform ∅ (use "/" failing Demo.server)
                          "GET" "/x" ∅ fresh_response in
  statusCode (response (handled d)) = 403 ∧
  body (response (handled d)) = "Forbidden".
Proof.
  cbv zeta.
  destruct (middleware_error_is_answered Demo.platform ∅
              (use "/" (fun _ res => (res, Threw (ExpectedError "Forbidden" 403)))
                   Demo.server)
              "GET" "/x" ∅ fresh_response
              (call_to (mkRoute None "/" true
                          (fun _ res => (res, Threw (ExpectedError "Forbidden" 403)))
                          "/") 0 "GET" "/x" ∅ fresh_response)
              (ExpectedError "Forbidden" 403)) as [_ Hanswer];
    [reflexivity | by left | reflexivity |].
  destruct (Hanswer eq_refl) as [-> _]. split; reflexivity.
Defined.

(** ** What rendering touches *)

(** Rendering a view reads the file system only when the view is not in
    the cache, and then only the file of that view; it changes no entry of
    the cache but the one of that view. *)
Theorem render_touches_only_its_view (pf : Platform) (fs : gmap string FsNode)
  (srv : Server) (view : string) (data : JSValue) :
  let r := _render pf fs srv view data in
  (is_Some (_templateCache srv !! view_name view) → accesses r = []) ∧
  (∀ a, a ∈ accesses r →
        a = Exists (view_file pf srv view) ∨ a = Read (view_file pf srv view)) ∧
  (∀ other, other ≠ view_name view →
            cache_after r !! other = _templateCache srv !! other) ∧
  (html r = Ok None → accesses r ≠ [] →
   cache_after r !! view_name view = Some None).
Proof.
  cbv zeta.
  destruct (_templateCache srv !! view_name view) as [[template|]|] eqn:Hcache.
  - rewrite (render_cached_template pf fs srv view data template) by done.
    simpl. split_and!; try done. by intros a ?%elem_of_nil.
  - rewrite (render_cached_absent pf fs srv view data) by done.
    simpl. split_and!; try done. by intros a ?%elem_of_nil.
  - destruct (fs !! view_file pf srv view) as [[template|]|] eqn:Hfile.
    + rewrite (render_loads pf fs srv view data template) by done. simpl.
      split_and!.
      * by intros [? ?].
      * intros a [->|[->|?%elem_of_nil]%elem_of_cons]%elem_of_cons;
          [by left | by right | done].
      * intros other Hother. by rewrite lookup_insert_ne.
      * by destruct (Template.substitute template data).
    + unfold _render, FS.existsSync, FS.readFileSync.
      assert ((if Js.str_eq view "/" then view +:+ "index" else view) =
              view_name view) as ->.
      { unfold view_name. destruct (Js.str_eq view "/") eqn:Hroot; [|done].
        by apply str_eq_true in Hroot as ->. }
      cbv zeta. rewrite Hcache. fold (view_file pf srv view). rewrite Hfile.
      rewrite bool_decide_eq_true_2 by eauto. simpl.
      split_and!; try done; try (by intros [? ?]).
      intros a [->|[->|?%elem_of_nil]%elem_of_cons]%elem_of_cons;
        [by left | by right | done].
    + rewrite (render_misses pf fs srv view data) by done. simpl.
      split_and!.
      * by intros [? ?].
      * intros a [->|?%elem_of_nil]%elem_of_cons; [by left | done].
      * intros other Hother. by rewrite lookup_insert_ne.
      * intros _ _. by rewrite lookup_insert_eq.
Qed.
